(** * Receipt ingestion: the MCP server of [servers/receipt_ocr_server.py]

    A shallow embedding of the category registry ([load_categories],
    [save_categories], [add_category], [remove_category]), of the row
    builder [SheetsTool.append_receipt] and of the tools built on them
    ([append_to_sheet], [extract_receipt_text], [structure_receipt_text]).

    Conventions of the model.
    - Python values that travel through the [json] module are values of
      [json].  The [json] module itself is not embedded: a text handed to
      [json.loads] enters the model together with what [json.loads] makes
      of it ([json_str]), a file read by [json.load] is represented by
      what it decodes to ([store]), and a text produced by [json.dumps] is
      represented by the value it encodes ([Dumps]).
    - Exceptions are the subclasses of [Exception]; a computation is a
      function from the state to a [result] and the next state, so that
      writes made before a [raise] stay made.
    - Google Sheets, Gemini and the local file system (other than
      [categories.json]) are collaborators: their answers are fields of
      [env]. *)

From Stdlib Require Import ZArith String Ascii List Bool Permutation.
From Stdlib Require Import Floats.SpecFloat.
Import ListNotations.
Local Open Scope string_scope.
Local Open Scope list_scope.

(** ** JSON values as Python holds them *)

#[local] Set Warnings "-register-all".

(** [int] and [float]: [json.loads] yields the first for an integer
    literal and the second otherwise. *)
Inductive number :=
| Int (z : Z)
| Float (f : spec_float).

Inductive json :=
| JNull
| JBool (b : bool)
| JNum (n : number)
| JStr (s : string)
| JArr (l : list json)
| JObj (d : list (string * json)).

(** A [dict] is kept as its items in insertion order; a key is bound once,
    and a lookup takes the first binding. *)
Definition dict := list (string * json).

Fixpoint dict_get (d : dict) (k : string) : option json :=
  match d with
  | [] => None
  | (k', v) :: d' => if String.eqb k' k then Some v else dict_get d' k
  end.

Definition has_key (k : string) (d : dict) : bool :=
  match dict_get d k with Some _ => true | None => false end.

Definition dict_keys (d : dict) : list string :=
  nodup string_dec (map fst d).

(** [price < 0] for a value in the [price] field. *)
Definition number_negative (n : number) : bool :=
  match n with
  | Int z => (z <? 0)%Z
  | Float f => SFltb f (S754_zero false)
  end.

Definition negative (v : json) : bool :=
  match v with
  | JNum n => number_negative n
  | _ => false
  end.

Definition type_name (v : json) : string :=
  match v with
  | JNull => "NoneType"
  | JBool _ => "bool"
  | JNum (Int _) => "int"
  | JNum (Float _) => "float"
  | JStr _ => "str"
  | JArr _ => "list"
  | JObj _ => "dict"
  end.

(** ** Exceptions and computations *)

Inductive exn_class :=
| JSONDecodeError
| TypeError
| AttributeError
| KeyError
| ValueError
| OtherError (name : string).

(** An exception: its class and [str(e)].  For exceptions the interpreter
    raises, the wording is CPython's; nothing below depends on it. *)
Record exn := mkExn { exn_cls : exn_class; exn_str : string }.

Inductive result (A : Type) :=
| Return (a : A)
| Raise (e : exn).
Arguments Return {A} a.
Arguments Raise {A} e.

(** ** The server's state and its collaborators *)

(** What reading a JSON text comes to: the decoded value, a
    [JSONDecodeError] with its message, or any other exception the read
    raises.  For [json.loads] the latter are such as [ValueError] (an
    integer literal beyond the digit limit) and [RecursionError] (deep
    nesting); for [with open(...) as f: json.load(f)] also [OSError] from
    [open] and [UnicodeDecodeError] from reading the file. *)
Inductive decoded :=
| Decoded (v : json)
| DecodeError (msg : string)
| LoadError (x : exn).

(** [categories.json]: absent for [os.path.exists], or there, with what
    opening and loading it comes to. *)
Inductive store :=
| NoFile
| File (d : decoded).

(** One spreadsheet row, and one append request: the [range] and the
    [values] of the body.  The [requests] of the state are the requests
    that [execute()] has returned from, in order.  A request whose call
    raised is not among them; whether the API applied any of it before
    raising is outside the model. *)
Definition row := list json.
Definition request := (string * list row)%type.

Record state := mkState {
  categories_file : store;
  service : bool;
  requests : list request
}.

(** A [str] given to [json.loads], with the outcome of that call. *)
Record json_str := mkJsonStr { text : string; loads : decoded }.

(** A Gemini response, as far as [parse_response] looks into it: the
    candidates, the parts of a candidate's content (if any) and the
    [text] attribute of a part (if any). *)
Record part := mkPart { part_text : option string }.
Record candidate := mkCandidate { content : option (list part) }.
Record response := mkResponse { candidates : list candidate }.

Inductive prompt :=
| ImagePrompt (mime_type data instruction : string)
| TextPrompt (s : string).

(** The order in which the interpreter goes through the set
    [{"vendor", "date", "line_items"}] when it prints it; it depends on
    the hashes of the run. *)
Inductive key_order := VDL | VLD | DVL | DLV | LVD | LDV.

Definition keys_in_order (o : key_order) : list string :=
  match o with
  | VDL => ["vendor"; "date"; "line_items"]
  | VLD => ["vendor"; "line_items"; "date"]
  | DVL => ["date"; "vendor"; "line_items"]
  | DLV => ["date"; "line_items"; "vendor"]
  | LVD => ["line_items"; "vendor"; "date"]
  | LDV => ["line_items"; "date"; "vendor"]
  end.

Record env := mkEnv {
  (** [str(v)], as an f-string formats a loaded value *)
  py_str : json -> string;
  (** [SheetsTool.auth]: credentials and [build] *)
  sheets_auth : result unit;
  (** [spreadsheets().values().append(...).execute()] *)
  sheets_execute : request -> result unit;
  (** [open(image_path, "rb").read()] followed by [base64.b64encode] *)
  read_base64 : string -> result string;
  (** [model.generate_content] *)
  generate_content : prompt -> result response;
  (** the order of the set [expected_keys] in this run *)
  set_order : key_order
}.

Definition M (A : Type) : Type := state -> result A * state.

Definition ret {A} (a : A) : M A := fun st => (Return a, st).
Definition raise {A} (e : exn) : M A := fun st => (Raise e, st).
Definition lift {A} (r : result A) : M A := fun st => (r, st).

Definition bind {A B} (m : M A) (k : A -> M B) : M B :=
  fun st =>
    match m st with
    | (Return a, st') => k a st'
    | (Raise e, st') => (Raise e, st')
    end.

Declare Scope py_scope.
Delimit Scope py_scope with py.
Notation "x <- m ;; k" := (bind m (fun x => k))
  (at level 61, m at next level, right associativity) : py_scope.
Notation "m ;; k" := (bind m (fun _ => k))
  (at level 61, right associativity) : py_scope.
Local Open Scope py_scope.

(** [try: body  except Exception as e: handler e] *)
Definition try_except {A} (body : M A) (handler : exn -> M A) : M A :=
  fun st =>
    match body st with
    | (Return a, st') => (Return a, st')
    | (Raise e, st') => handler e st'
    end.

(** ** Python operations on loaded values *)

Definition is_str (s : string) (v : json) : bool :=
  match v with
  | JStr s' => String.eqb s' s
  | _ => false
  end.

(** [needle in hay] for two [str]. *)
Fixpoint str_contains (needle hay : string) : bool :=
  if String.prefix needle hay then true
  else match hay with
       | EmptyString => false
       | String _ hay' => str_contains needle hay'
       end.

(** [k in v] for a [str] [k]. *)
Definition py_in (k : string) (v : json) : result bool :=
  match v with
  | JObj d => Return (has_key k d)
  | JArr l => Return (existsb (is_str k) l)
  | JStr s => Return (str_contains k s)
  | _ => Raise (mkExn TypeError
                  ("argument of type '" ++ type_name v ++ "' is not iterable"))
  end.

(** [v[k]] for a [str] [k]. *)
Definition py_getitem (v : json) (k : string) : result json :=
  match v with
  | JObj d =>
      match dict_get d k with
      | Some x => Return x
      | None => Raise (mkExn KeyError ("'" ++ k ++ "'"))
      end
  | JArr _ =>
      Raise (mkExn TypeError "list indices must be integers or slices, not str")
  | JStr _ =>
      Raise (mkExn TypeError "string indices must be integers, not 'str'")
  | _ =>
      Raise (mkExn TypeError ("'" ++ type_name v ++ "' object is not subscriptable"))
  end.

Definition no_attribute (v : json) (attr : string) : exn :=
  mkExn AttributeError
    ("'" ++ type_name v ++ "' object has no attribute '" ++ attr ++ "'").

(** [v.get(k, default)] *)
Definition py_get (v : json) (k : string) (default : json) : result json :=
  match v with
  | JObj d =>
      Return (match dict_get d k with Some x => x | None => default end)
  | _ => Raise (no_attribute v "get")
  end.

(** The items a [for] loop over [v] visits. *)
Definition py_iter (v : json) : result (list json) :=
  match v with
  | JArr l => Return l
  | JObj d => Return (map JStr (dict_keys d))
  | JStr s =>
      Return (map (fun c => JStr (String c EmptyString)) (list_ascii_of_string s))
  | _ => Raise (mkExn TypeError ("'" ++ type_name v ++ "' object is not iterable"))
  end.

(** ** Google Sheets: [SheetsTool] *)

Definition get_state : M state := fun st => (Return st, st).

(** [auth]: on success [self.service] is set. *)
Definition auth (e : env) : M unit :=
  fun st =>
    match sheets_auth e with
    | Return _ => (Return tt, mkState (categories_file st) true (requests st))
    | Raise x => (Raise x, st)
    end.

(** The append request: when the call returns, it is added to the
    requests the API has answered. *)
Definition execute (e : env) (req : request) : M unit :=
  fun st =>
    match sheets_execute e req with
    | Return _ =>
        (Return tt, mkState (categories_file st) (service st) (requests st ++ [req]))
    | Raise x => (Raise x, st)
    end.

(** The loop of [append_receipt]: one [values.append] per line item. *)
Fixpoint append_rows (date vendor : json) (line_items : list json)
    (values : list row) : M (list row) :=
  match line_items with
  | [] => ret values
  | li :: rest =>
      item <- lift (py_get li "item" (JStr EmptyString)) ;;
      price <- lift (py_get li "price" (JStr EmptyString)) ;;
      category <- lift (py_get li "category" (JStr EmptyString)) ;;
      append_rows date vendor rest (values ++ [[date; vendor; item; price; category]])
  end.

Definition success (rows_added : nat) : json :=
  JObj [("status", JStr "success");
        ("rows_added", JNum (Int (Z.of_nat rows_added)))].

Definition append_receipt (e : env) (data : json) (sheet_name : string) : M json :=
  st <- get_state ;;
  (if negb (service st) then auth e else ret tt) ;;
  vendor <- lift (py_get data "vendor" (JStr EmptyString)) ;;
  date <- lift (py_get data "date" (JStr EmptyString)) ;;
  line_items <- lift (py_get data "line_items" (JArr [])) ;;
  items <- lift (py_iter line_items) ;;
  values <- append_rows date vendor items [] ;;
  execute e ((sheet_name ++ "!A:D")%string, values) ;;
  ret (success (length values)).

(** ** Receipts that passed validation *)

(** The value a key is bound to in an object ([None]-like [JNull] when the
    value is no object or lacks the key). *)
Definition field (v : json) (k : string) : json :=
  match v with
  | JObj d => match dict_get d k with Some x => x | None => JNull end
  | _ => JNull
  end.

Definition valid_line_item (li : json) : bool :=
  match li with
  | JObj d => has_key "item" d && has_key "price" d && has_key "category" d
  | _ => false
  end.

(** A ReceiptRecord: an object with [vendor], [date] and [line_items], the
    latter a list of objects that each have [item], [price], [category]. *)
Definition validated (data : json) : bool :=
  match data with
  | JObj d =>
      has_key "vendor" d && has_key "date" d &&
      match dict_get d "line_items" with
      | Some (JArr l) => forallb valid_line_item l
      | _ => false
      end
  | _ => false
  end.

Definition line_items_of (data : json) : list json :=
  match field data "line_items" with
  | JArr l => l
  | _ => []
  end.

(** The row the spec derives from one line item. *)
Definition row_of (data li : json) : row :=
  [field data "date"; field data "vendor";
   field li "item"; field li "price"; field li "category"].

(** The Sheets collaborator answers: [auth] (if needed) and the append of
    [values] to [sheet_name] do not raise. *)
Definition sheets_ok (e : env) (st : state) (sheet_name : string)
    (values : list row) : Prop :=
  (service st = true \/ sheets_auth e = Return tt) /\
  sheets_execute e ((sheet_name ++ "!A:D")%string, values) = Return tt.

(** ** Category storage *)

Definition default_categories : list string :=
  ["Snacks"; "Vegetables"; "Meat"; "Clothes";
   "Makeup/Skincare"; "Condiments"; "Dairy";
   "Beverages"; "Bakery"].

(** A Python list of [str]. *)
Definition strs (l : list string) : json := JArr (map JStr l).

(** [json.load(f)] / [json.loads(s)] *)
Definition json_load (d : decoded) : M json :=
  match d with
  | Decoded v => ret v
  | DecodeError msg => raise (mkExn JSONDecodeError msg)
  | LoadError x => raise x
  end.

(** [with open(CATEGORIES_FILE, "w") as f: json.dump(v, f, indent=2)] *)
Definition dump_categories_file (v : json) : M unit :=
  fun st => (Return tt, mkState (File (Decoded v)) (service st) (requests st)).

Definition load_categories : M json :=
  st <- get_state ;;
  match categories_file st with
  | NoFile =>
      let default := JObj [("categories", strs default_categories)] in
      dump_categories_file default ;;
      lift (py_getitem default "categories")
  | File f =>
      data <- json_load f ;;
      lift (py_get data "categories" (JArr []))
  end.

Definition save_categories (categories : json) : M unit :=
  dump_categories_file (JObj [("categories", categories)]).

(** [v.append(x)] *)
Definition py_append (v x : json) : result json :=
  match v with
  | JArr l => Return (JArr (l ++ [x]))
  | _ => Raise (no_attribute v "append")
  end.

Fixpoint remove_first (s : string) (l : list json) : list json :=
  match l with
  | [] => []
  | x :: rest => if is_str s x then rest else x :: remove_first s rest
  end.

(** [v.remove(s)] for a [str] [s]. *)
Definition py_remove (v : json) (s : string) : result json :=
  match v with
  | JArr l =>
      if existsb (is_str s) l then Return (JArr (remove_first s l))
      else Raise (mkExn ValueError "list.remove(x): x not in list")
  | _ => Raise (no_attribute v "remove")
  end.

(** ** Helpers *)

Definition load_image_as_base64 (e : env) (image_path : string) : M string :=
  lift (read_base64 e image_path).

Definition newline : string := String (ascii_of_nat 10) EmptyString.

Definition part_texts (parts : list part) : list string :=
  flat_map (fun p => match part_text p with
                     | Some (String c s) => [String c s]
                     | _ => []
                     end) parts.

Definition parse_response (r : response) : string :=
  match candidates r with
  | [] => EmptyString
  | cands =>
      String.concat newline
        (flat_map (fun cand => match content cand with
                               | Some parts => part_texts parts
                               | None => []
                               end) cands)
  end.

(** ** Tools *)

(** What a tool returns: the text [json.dumps] writes for a value (layout
    options such as [indent=2] are left out), or a [str] passed on as it
    is. *)
Inductive tool_output :=
| Dumps (v : json)
| Verbatim (s : string).

Definition error_only (x : exn) : M tool_output :=
  ret (Dumps (JObj [("error", JStr (exn_str x))])).

Definition extract_receipt_text_body (e : env) (image_path : string)
    : M tool_output :=
  image_b64 <- load_image_as_base64 e image_path ;;
  response <- lift (generate_content e
                      (ImagePrompt "image/jpeg" image_b64
                         "Extract all text from this receipt.")) ;;
  ret (Dumps (JObj [("raw_text", JStr (parse_response response))])).

Definition extract_receipt_text (e : env) (image_path : string) : M tool_output :=
  try_except (extract_receipt_text_body e image_path) error_only.

Definition indent8 : string := "        ".

Definition classification_prompt (e : env) (raw_text : string) (categories : json)
    : string :=
  String.concat newline
    [EmptyString;
     indent8 ++ "Here is a receipt OCR text:";
     EmptyString;
     indent8 ++ raw_text;
     EmptyString;
     indent8 ++ "I have the following spending categories:";
     indent8 ++ py_str e categories;
     EmptyString;
     indent8 ++ "For each line item, classify it into the most appropriate category.";
     indent8 ++ "Return JSON with:";
     indent8 ++ "- vendor";
     indent8 ++ "- date";
     indent8 ++ "- total_amount";
     indent8 ++ "- line_items: list of objects with 'item', 'price', 'category'";
     indent8]%string.

Definition structure_receipt_text_body (e : env) (raw_text : string)
    : M tool_output :=
  categories <- load_categories ;;
  response <- lift (generate_content e
                      (TextPrompt (classification_prompt e raw_text categories))) ;;
  ret (Verbatim (parse_response response)).

Definition structure_receipt_text (e : env) (raw_text : string) : M tool_output :=
  try_except (structure_receipt_text_body e raw_text) error_only.

Definition expected_keys : list string := ["vendor"; "date"; "line_items"].

(** [str] of a non-empty set of plain [str] keys, given the order in
    which the set is gone through. *)
Definition set_str (keys : list string) : string :=
  ("{" ++ String.concat ", " (map (fun k => "'" ++ k ++ "'") keys) ++ "}")%string.

(** [all(k in data for k in keys)] *)
Fixpoint all_in (keys : list string) (data : json) : result bool :=
  match keys with
  | [] => Return true
  | k :: rest =>
      match py_in k data with
      | Return true => all_in rest data
      | r => r
      end
  end.

Definition is_list (v : json) : bool :=
  match v with JArr _ => true | _ => false end.

(** [keys <= li.keys()] *)
Definition keys_subset (keys : list string) (li : json) : result bool :=
  match li with
  | JObj d => Return (forallb (fun k => has_key k d) keys)
  | _ => Raise (no_attribute li "keys")
  end.

Definition missing_keys_error (e : env) (data : json) : tool_output :=
  Dumps (JObj [("error", JStr ("Invalid JSON: missing required keys "
                               ++ set_str (keys_in_order (set_order e))));
               ("raw", data)]).

Definition not_a_list_error (data : json) : tool_output :=
  Dumps (JObj [("error", JStr "line_items must be a list"); ("raw", data)]).

Definition line_item_error (e : env) (data li : json) : tool_output :=
  Dumps (JObj [("error", JStr ("Invalid line_item format " ++ py_str e li
                               ++ ". Must include item, price, and category."));
               ("raw", data)]).

(** The validation loop over [data["line_items"]]; [Some out] when it
    returns [out] from the tool. *)
Fixpoint check_line_items (e : env) (data : json) (items : list json)
    : M (option tool_output) :=
  match items with
  | [] => ret None
  | li :: rest =>
      ok <- lift (keys_subset ["item"; "price"; "category"] li) ;;
      if negb ok then ret (Some (line_item_error e data li))
      else check_line_items e data rest
  end.

Definition append_to_sheet_body (e : env) (structured_json : json_str)
    : M tool_output :=
  data <- json_load (loads structured_json) ;;
  present <- lift (all_in expected_keys data) ;;
  if negb present then ret (missing_keys_error e data)
  else
    line_items <- lift (py_getitem data "line_items") ;;
    if negb (is_list line_items) then ret (not_a_list_error data)
    else
      items <- lift (py_iter line_items) ;;
      early <- check_line_items e data items ;;
      match early with
      | Some out => ret out
      | None =>
          result <- append_receipt e data "Sheet1" ;;
          ret (Dumps result)
      end.

Definition invalid_json_error (structured_json : json_str) : tool_output :=
  Dumps (JObj [("error", JStr "Invalid JSON received from LLM");
               ("raw", JStr (text structured_json))]).

Definition other_error (x : exn) (structured_json : json_str) : tool_output :=
  Dumps (JObj [("error", JStr (exn_str x)); ("raw", JStr (text structured_json))]).

Definition append_to_sheet_handler (structured_json : json_str) (x : exn)
    : M tool_output :=
  match exn_cls x with
  | JSONDecodeError => ret (invalid_json_error structured_json)
  | _ => ret (other_error x structured_json)
  end.

Definition append_to_sheet (e : env) (structured_json : json_str) : M tool_output :=
  try_except (append_to_sheet_body e structured_json)
    (append_to_sheet_handler structured_json).

Definition add_category_body (new_category : string) : M tool_output :=
  categories <- load_categories ;;
  present <- lift (py_in new_category categories) ;;
  if negb present then
    categories' <- lift (py_append categories (JStr new_category)) ;;
    save_categories categories' ;;
    ret (Dumps (JObj [("status", JStr "added"); ("categories", categories')]))
  else
    ret (Dumps (JObj [("status", JStr "exists"); ("categories", categories)])).

Definition add_category (new_category : string) : M tool_output :=
  try_except (add_category_body new_category) error_only.

Definition remove_category_body (category : string) : M tool_output :=
  categories <- load_categories ;;
  present <- lift (py_in category categories) ;;
  if present then
    categories' <- lift (py_remove categories category) ;;
    save_categories categories' ;;
    ret (Dumps (JObj [("status", JStr "removed"); ("categories", categories')]))
  else
    ret (Dumps (JObj [("status", JStr "not_found"); ("categories", categories)])).

Definition remove_category (category : string) : M tool_output :=
  try_except (remove_category_body category) error_only.

(** ** Vocabulary of the properties *)


Definition has_error_field (v : json) : bool :=
  match v with
  | JObj d => has_key "error" d
  | _ => false
  end.


(** The tool never lets an exception out. *)
Definition never_raises (tool : M tool_output) : Prop :=
  forall st, exists out st', tool st = (Return out, st').

(** The tool always returns a text written by [json.dumps]. *)
Definition returns_json (tool : M tool_output) : Prop :=
  forall st, exists v st', tool st = (Return (Dumps v), st').

(** What [body] returns, [tool] returns; what [body] raises, [tool] turns
    into a JSON object with an [error] field. *)
Definition catches (body tool : M tool_output) : Prop :=
  forall st,
    match body st with
    | (Return out, st') => tool st = (Return out, st')
    | (Raise x, st') =>
        exists v, tool st = (Return (Dumps v), st') /\ has_error_field v = true
    end.

(** The durable store has the documented shape: an object whose
    [categories] is a list of strings. *)
Definition is_string (v : json) : bool :=
  match v with JStr _ => true | _ => false end.

Definition store_conforms (s : store) : bool :=
  match s with
  | File (Decoded (JObj d)) =>
      match dict_get d "categories" with
      | Some (JArr l) => forallb is_string l
      | _ => false
      end
  | _ => false
  end.

(** The document [save_categories] writes, and a state with another file. *)
Definition categories_doc (categories : json) : json :=
  JObj [("categories", categories)].

Definition with_file (s : store) (st : state) : state :=
  mkState s (service st) (requests st).

(** What [append_to_sheet] does once validation has passed. *)
Definition append_validated (e : env) (structured_json : json_str) (data : json)
    : M tool_output :=
  try_except
    (result <- append_receipt e data "Sheet1" ;; ret (Dumps result))
    (append_to_sheet_handler structured_json).

(** ** Sample collaborators and inputs *)

(** Collaborators that answer: Sheets accepts every request, the image
    file is readable, and Gemini replies with the given text parts. *)
Definition env_replying (reply : list string) : env :=
  mkEnv (fun _ => "<value>")
        (Return tt)
        (fun _ => Return tt)
        (fun _ => Return "aGVsbG8=")
        (fun _ => Return (mkResponse
                            [mkCandidate (Some (map (fun s => mkPart (Some s)) reply))]))
        VDL.

Definition env_ok : env := env_replying ["MILK 3.50"].

Definition fresh_state : state := mkState NoFile false [].

Definition line_item (item : string) (price : Z) (category : string) : json :=
  JObj [("item", JStr item); ("price", JNum (Int price)); ("category", JStr category)].

Definition receipt (line_items : list json) : json :=
  JObj [("vendor", JStr "Corner Shop"); ("date", JStr "01/02/2024");
        ("line_items", JArr line_items)].

(** ** Further vocabulary *)

(** [cs.remove(name)] on a list of [str]: the first occurrence goes. *)
Fixpoint remove_one (name : string) (cs : list string) : list string :=
  match cs with
  | [] => []
  | c :: rest => if String.eqb c name then rest else c :: remove_one name rest
  end.

(** The list [load_categories] hands out for a store that is an object. *)
Definition stored_categories (d : dict) : json :=
  match dict_get d "categories" with
  | Some x => x
  | None => JArr []
  end.

Definition is_object (v : json) : bool :=
  match v with JObj _ => true | _ => false end.

(** [v.get(k, "")] for an object [v]. *)
Definition get_or_blank (v : json) (k : string) : json :=
  match v with
  | JObj d => match dict_get d k with Some x => x | None => JStr EmptyString end
  | _ => JStr EmptyString
  end.

(** The row [append_receipt] builds when it is called on a receipt that
    was not validated: a key that is absent gives an empty cell. *)
Definition row_with_blanks (data li : json) : row :=
  [get_or_blank data "date"; get_or_blank data "vendor";
   get_or_blank li "item"; get_or_blank li "price"; get_or_blank li "category"].

(** The non-empty texts of a response, in order. *)
Definition response_texts (r : response) : list string :=
  flat_map (fun cand => match content cand with
                        | Some parts => part_texts parts
                        | None => []
                        end) (candidates r).

(** Collaborators with the given Sheets behaviour. *)
Definition env_sheets (a : result unit) (x : request -> result unit) : env :=
  mkEnv (fun _ => "<value>") a x
        (fun _ => Return "aGVsbG8=")
        (fun _ => Return (mkResponse []))
        LVD.

Definition http_error : exn := mkExn (OtherError "HttpError") "403 Forbidden".

(** Splits the [match] a [bind] or a branch of the code is stuck on. *)
Ltac branch :=
  match goal with
  | H : context [match ?x with _ => _ end] |- _ => destruct x eqn:?
  | H : (_, _) = (_, _) |- _ => inversion H; subst; clear H
  | H : Some _ = Some _ |- _ => inversion H; subst; clear H
  end; try discriminate.

(** * Properties *)

(** ** Rows built by [append_receipt] *)

Section Rows.

Variable e : env.

Lemma field_get (li : json) (k : string) (default : json) :
  match li with JObj d => has_key k d = true | _ => False end ->
  py_get li k default = Return (field li k).
Proof.
  destruct li; try contradiction.
  unfold has_key, py_get, field.
  destruct (dict_get d k); [reflexivity | discriminate].
Qed.

Lemma valid_line_item_keys (li : json) :
  valid_line_item li = true ->
  exists d, li = JObj d /\ has_key "item" d = true /\
            has_key "price" d = true /\ has_key "category" d = true.
Proof.
  destruct li; simpl; try discriminate.
  intros H. apply andb_prop in H as [H Hc]. apply andb_prop in H as [Hi Hp].
  exists d. auto.
Qed.

(** The loop emits one row per line item, in order, after what was there. *)
Lemma append_rows_valid (date vendor : json) (items : list json) :
  forallb valid_line_item items = true ->
  forall values st,
    append_rows date vendor items values st
    = (Return (values ++ map (fun li => [date; vendor; field li "item";
                                         field li "price"; field li "category"])
                             items), st).
Proof.
  induction items as [| li rest IH]; intros Hall values st.
  - simpl. rewrite app_nil_r. reflexivity.
  - simpl in Hall. apply andb_prop in Hall as [Hli Hrest].
    destruct (valid_line_item_keys li Hli) as (d & -> & Hi & Hp & Hc).
    cbn [append_rows]. unfold bind at 1, lift at 1.
    rewrite (field_get (JObj d) "item") by exact Hi.
    unfold bind at 1, lift at 1.
    rewrite (field_get (JObj d) "price") by exact Hp.
    unfold bind at 1, lift at 1.
    rewrite (field_get (JObj d) "category") by exact Hc.
    rewrite (IH Hrest). rewrite <- app_assoc. reflexivity.
Qed.

Lemma validated_shape (data : json) :
  validated data = true ->
  exists d l, data = JObj d /\ has_key "vendor" d = true /\
              has_key "date" d = true /\
              dict_get d "line_items" = Some (JArr l) /\
              forallb valid_line_item l = true.
Proof.
  destruct data; simpl; try discriminate.
  intros H. apply andb_prop in H as [H Hl]. apply andb_prop in H as [Hv Hd].
  destruct (dict_get d "line_items") as [[| | | | l |] |] eqn:E; try discriminate.
  exists d, l. auto.
Qed.

Lemma line_items_of_validated (d : dict) (l : list json) :
  dict_get d "line_items" = Some (JArr l) -> line_items_of (JObj d) = l.
Proof. intros H. unfold line_items_of, field. rewrite H. reflexivity. Qed.

(** A validated receipt whose rows the Sheets collaborator accepts: every
    line item becomes its own row, and one request carries them all. *)
Lemma append_receipt_validated (data : json) (sheet_name : string) (st : state) :
  validated data = true ->
  sheets_ok e st sheet_name (map (row_of data) (line_items_of data)) ->
  append_receipt e data sheet_name st
  = (Return (success (length (line_items_of data))),
     mkState (categories_file st) true
       (requests st ++ [((sheet_name ++ "!A:D")%string,
                         map (row_of data) (line_items_of data))])).
Proof.
  intros Hval [Hauth Hexec].
  destruct (validated_shape data Hval) as (d & l & -> & Hv & Hd & Hl & Hall).
  rewrite (line_items_of_validated d l Hl) in *.
  unfold append_receipt.
  unfold bind at 1, get_state.
  assert (Hprep : exists st1,
             (if negb (service st) then auth e else ret tt) st = (Return tt, st1) /\
             categories_file st1 = categories_file st /\
             service st1 = true /\ requests st1 = requests st).
  { destruct (service st) eqn:Es; simpl.
    - exists st. unfold ret. auto.
    - destruct Hauth as [Hs | Ha]; [discriminate |].
      unfold auth. rewrite Ha. eexists. split; [reflexivity |]. simpl. auto. }
  destruct Hprep as (st1 & Hrun & Hc1 & Hs1 & Hr1).
  unfold bind at 1. rewrite Hrun.
  unfold bind at 1, lift at 1.
  rewrite (field_get (JObj d) "vendor") by exact Hv.
  unfold bind at 1, lift at 1.
  rewrite (field_get (JObj d) "date") by exact Hd.
  unfold bind at 1, lift at 1.
  unfold py_get at 1. rewrite Hl.
  unfold bind at 1, lift at 1, py_iter.
  unfold bind at 1. rewrite (append_rows_valid _ _ l Hall). simpl app.
  unfold bind at 1, execute.
  match goal with
  | |- context [sheets_execute e (?r, ?vs)] =>
      change vs with (map (row_of (JObj d)) l)
  end.
  rewrite Hexec. unfold ret. rewrite length_map, Hc1, Hs1, Hr1. reflexivity.
Qed.

End Rows.

(** C2. For a validated receipt in which no line item has a negative
    price (and whose rows the Sheets collaborator accepts),
    [append_receipt] returns [rows_added] equal to the number of line
    items, and the i-th row of the batch it appends is
    [[date; vendor; item_i; price_i; category_i]] of the i-th line item. *)
Theorem append_receipt_one_row_per_item
    (e : env) (data : json) (sheet_name : string) (st : state) :
  validated data = true ->
  forallb (fun li => negb (negative (field li "price"))) (line_items_of data) = true ->
  sheets_ok e st sheet_name (map (row_of data) (line_items_of data)) ->
  exists values st',
    append_receipt e data sheet_name st
    = (Return (JObj [("status", JStr "success");
                     ("rows_added",
                      JNum (Int (Z.of_nat (length (line_items_of data)))))]),
       st') /\
    requests st' = requests st ++ [((sheet_name ++ "!A:D")%string, values)] /\
    length values = length (line_items_of data) /\
    forall i li,
      nth_error (line_items_of data) i = Some li ->
      nth_error values i
      = Some [field data "date"; field data "vendor";
              field li "item"; field li "price"; field li "category"].
Proof.
  intros Hval _ Hok.
  exists (map (row_of data) (line_items_of data)). eexists.
  split; [apply append_receipt_validated; assumption |].
  split; [reflexivity |].
  split; [apply length_map |].
  intros i li Hi. rewrite nth_error_map, Hi. reflexivity.
Qed.

Lemma append_receipt_one_row_per_item_witness :
  exists values st',
    append_receipt env_ok
      (receipt [line_item "Milk" 3 "Dairy"; line_item "Bread" 2 "Bakery"])
      "Sheet1" fresh_state
    = (Return (JObj [("status", JStr "success"); ("rows_added", JNum (Int 2))]),
       st') /\
    requests st' = [("Sheet1!A:D", values)] /\
    length values = 2 /\
    forall i li,
      nth_error [line_item "Milk" 3 "Dairy"; line_item "Bread" 2 "Bakery"] i = Some li ->
      nth_error values i
      = Some [JStr "01/02/2024"; JStr "Corner Shop";
              field li "item"; field li "price"; field li "category"].
Proof.
  apply (append_receipt_one_row_per_item env_ok
           (receipt [line_item "Milk" 3 "Dairy"; line_item "Bread" 2 "Bakery"])
           "Sheet1" fresh_state).
  - reflexivity.
  - reflexivity.
  - split; [right |]; reflexivity.
Defined.

(** C3. For a validated receipt whose first line item has a negative
    price, that item is emitted as the first row of the batch, with its
    price as it is in the line item. *)
Theorem append_receipt_leading_negative
    (e : env) (data : json) (sheet_name : string) (st : state)
    (li : json) (rest : list json) :
  validated data = true ->
  line_items_of data = li :: rest ->
  negative (field li "price") = true ->
  sheets_ok e st sheet_name (map (row_of data) (line_items_of data)) ->
  exists others st',
    append_receipt e data sheet_name st
    = (Return (success (S (length others))), st') /\
    requests st' = requests st ++
      [((sheet_name ++ "!A:D")%string,
        [field data "date"; field data "vendor";
         field li "item"; field li "price"; field li "category"] :: others)] /\
    length others = length rest.
Proof.
  intros Hval Hitems _ Hok.
  exists (map (row_of data) rest). eexists.
  rewrite (append_receipt_validated e data sheet_name st Hval Hok).
  rewrite Hitems. simpl. rewrite !length_map.
  repeat split; reflexivity.
Qed.

(** The instance of the spec: [{item: A, price: -5}] alone gives exactly
    one row, whose price is -5. *)
Lemma append_receipt_leading_negative_witness :
  exists others st',
    append_receipt env_ok (receipt [line_item "A" (-5) "Snacks"]) "Sheet1" fresh_state
    = (Return (success (S (length others))), st') /\
    requests st' = [] ++
      [("Sheet1!A:D",
        [JStr "01/02/2024"; JStr "Corner Shop";
         JStr "A"; JNum (Int (-5)); JStr "Snacks"] :: others)] /\
    length others = length (@nil json).
Proof.
  apply (append_receipt_leading_negative env_ok
           (receipt [line_item "A" (-5) "Snacks"]) "Sheet1" fresh_state
           (line_item "A" (-5) "Snacks") []).
  - reflexivity.
  - reflexivity.
  - reflexivity.
  - split; [right |]; reflexivity.
Defined.

(** [append_receipt] never merges: whatever the prices, a validated
    receipt gives as many rows as it has line items. *)
Lemma append_receipt_rows_added (e : env) (data : json) (sheet_name : string)
    (st : state) :
  validated data = true ->
  sheets_ok e st sheet_name (map (row_of data) (line_items_of data)) ->
  fst (append_receipt e data sheet_name st)
  = Return (JObj [("status", JStr "success");
                  ("rows_added", JNum (Int (Z.of_nat (length (line_items_of data)))))]).
Proof.
  intros Hval Hok. rewrite (append_receipt_validated e data sheet_name st Hval Hok).
  reflexivity.
Qed.

(** C1 (the code departs from it). On [{item: A, price: 10}, {item: B,
    price: -2}] the merge rule asks for the single row
    [[date; vendor; A; 8; cat_A]] and [rows_added = 1]; [append_receipt]
    emits B as a row of its own, leaves A at 10 and reports two rows. *)
Theorem append_receipt_does_not_merge :
  append_receipt env_ok
    (receipt [line_item "A" 10 "Snacks"; line_item "B" (-2) "Snacks"])
    "Sheet1" fresh_state
  = (Return (success 2),
     mkState NoFile true
       [("Sheet1!A:D",
         [[JStr "01/02/2024"; JStr "Corner Shop"; JStr "A"; JNum (Int 10); JStr "Snacks"];
          [JStr "01/02/2024"; JStr "Corner Shop"; JStr "B"; JNum (Int (-2)); JStr "Snacks"]])]).
Proof. reflexivity. Qed.

(** ** The category registry *)

Lemma load_categories_object (d : dict) (st : state) :
  categories_file st = File (Decoded (JObj d)) ->
  load_categories st
  = (Return (match dict_get d "categories" with Some x => x | None => JArr [] end), st).
Proof.
  intros H. unfold load_categories, bind, get_state. rewrite H. reflexivity.
Qed.

(** C6. For every list [cs] of category strings, [save_categories cs]
    followed by [load_categories] gives back [cs]: the same elements in
    the same order. *)
Theorem save_then_load (cs : list string) (st : state) :
  exists st1,
    save_categories (strs cs) st = (Return tt, st1) /\
    load_categories st1 = (Return (strs cs), st1).
Proof.
  exists (with_file (File (Decoded (categories_doc (strs cs)))) st).
  split; [reflexivity |].
  apply (load_categories_object [("categories", strs cs)]). reflexivity.
Qed.

(** C7. When [categories.json] does not exist, [load_categories] returns
    the fixed default of nine categories, has written that default to the
    store when it returns, and a second [load_categories] returns the same
    list. *)
Theorem load_categories_bootstrap (st : state) :
  categories_file st = NoFile ->
  exists st1,
    load_categories st = (Return (strs default_categories), st1) /\
    categories_file st1 = File (Decoded (categories_doc (strs default_categories))) /\
    load_categories st1 = (Return (strs default_categories), st1) /\
    default_categories
    = ["Snacks"; "Vegetables"; "Meat"; "Clothes"; "Makeup/Skincare";
       "Condiments"; "Dairy"; "Beverages"; "Bakery"] /\
    length default_categories = 9.
Proof.
  intros H.
  exists (with_file (File (Decoded (categories_doc (strs default_categories)))) st).
  split.
  - unfold load_categories, bind, get_state. rewrite H. reflexivity.
  - repeat split; reflexivity.
Qed.

Lemma load_categories_bootstrap_witness :
  exists st1,
    load_categories fresh_state = (Return (strs default_categories), st1) /\
    categories_file st1 = File (Decoded (categories_doc (strs default_categories))) /\
    load_categories st1 = (Return (strs default_categories), st1) /\
    default_categories
    = ["Snacks"; "Vegetables"; "Meat"; "Clothes"; "Makeup/Skincare";
       "Condiments"; "Dairy"; "Beverages"; "Bakery"] /\
    length default_categories = 9.
Proof. apply (load_categories_bootstrap fresh_state). reflexivity. Defined.

Lemma existsb_is_str (name : string) (cs : list string) :
  existsb (is_str name) (map JStr cs) = true <-> In name cs.
Proof.
  induction cs as [| c cs IH]; simpl.
  - split; [discriminate | contradiction].
  - rewrite orb_true_iff, IH, String.eqb_eq. tauto.
Qed.


(** A name that is not in the stored list is appended as given, the list
    is saved, and the status is [added] with the updated list. *)
Lemma add_category_added (name : string) (cs : list string) (st : state) :
  categories_file st = File (Decoded (categories_doc (strs cs))) ->
  ~ In name cs ->
  add_category name st
  = (Return (Dumps (JObj [("status", JStr "added");
                          ("categories", strs (cs ++ [name]))])),
     with_file (File (Decoded (categories_doc (strs (cs ++ [name]))))) st).
Proof.
  intros Hfile Hin.
  assert (Hex : existsb (is_str name) (map JStr cs) = false).
  { destruct (existsb (is_str name) (map JStr cs)) eqn:E; [| reflexivity].
    apply existsb_is_str in E. contradiction. }
  unfold add_category, try_except, add_category_body.
  unfold bind at 1. rewrite (load_categories_object _ st Hfile). simpl dict_get.
  unfold bind, lift, py_in, strs. rewrite Hex. simpl.
  unfold strs. rewrite map_app. reflexivity.
Qed.

(** C5 (the code departs from it). [add_category] does not trim: with
    [Dairy] in the store, the name [ Dairy] (one leading blank) is not
    found, is appended with its blank, and the status is [added]. *)
Theorem add_category_keeps_whitespace :
  In "Dairy" default_categories /\
  add_category " Dairy"
    (mkState (File (Decoded (categories_doc (strs default_categories)))) false [])
  = (Return (Dumps (JObj [("status", JStr "added");
                          ("categories", strs (default_categories ++ [" Dairy"]))])),
     mkState (File (Decoded (categories_doc (strs (default_categories ++ [" Dairy"])))))
       false []).
Proof. split; [simpl; tauto | reflexivity]. Qed.

(** C8, as the code has it. A store that exists but is corrupt or
    unreadable makes [load_categories] fail with the exception raised at
    that point, and nothing is returned or written: [JSONDecodeError] for
    a text that is not JSON, the exception of [open] or of the read for a
    file that cannot be read, [AttributeError] for a text that decodes to
    something other than an object.  A store that decodes to an object is
    read without error: the value under [categories], or the empty list
    when the key is absent. *)
Theorem load_categories_existing_store (st : state) :
  (forall msg,
      categories_file st = File (DecodeError msg) ->
      load_categories st = (Raise (mkExn JSONDecodeError msg), st)) /\
  (forall x,
      categories_file st = File (LoadError x) ->
      load_categories st = (Raise x, st)) /\
  (forall v,
      categories_file st = File (Decoded v) ->
      (forall d, v <> JObj d) ->
      load_categories st
      = (Raise (mkExn AttributeError
                  ("'" ++ type_name v ++ "' object has no attribute 'get'")), st)) /\
  (forall d,
      categories_file st = File (Decoded (JObj d)) ->
      load_categories st
      = (Return (match dict_get d "categories" with
                 | Some x => x
                 | None => JArr []
                 end), st)).
Proof.
  repeat match goal with |- _ /\ _ => split end.
  - intros msg H. unfold load_categories, bind, get_state. rewrite H. reflexivity.
  - intros x H. unfold load_categories, bind, get_state. rewrite H. reflexivity.
  - intros v H Hv. unfold load_categories, bind, get_state. rewrite H.
    destruct v; try reflexivity.
    exfalso. apply (Hv d). reflexivity.
  - intros d H. apply load_categories_object. exact H.
Qed.

(** A file that cannot be decoded as text: the read raises
    [UnicodeDecodeError], and so does [load_categories]. *)
Lemma load_categories_existing_store_witness :
  load_categories
    (mkState (File (LoadError (mkExn (OtherError "UnicodeDecodeError")
                                 "'utf-8' codec can't decode byte 0xff")))
       false [])
  = (Raise (mkExn (OtherError "UnicodeDecodeError")
              "'utf-8' codec can't decode byte 0xff"),
     mkState (File (LoadError (mkExn (OtherError "UnicodeDecodeError")
                                 "'utf-8' codec can't decode byte 0xff")))
       false []).
Proof.
  apply (proj1 (proj2 (load_categories_existing_store
                         (mkState (File (LoadError
                                          (mkExn (OtherError "UnicodeDecodeError")
                                             "'utf-8' codec can't decode byte 0xff")))
                            false [])))).
  reflexivity.
Defined.

(** A store whose list sits under a misspelt key is read as empty. *)
Example load_categories_misspelt_key :
  load_categories (mkState (File (Decoded (JObj [("Categories", strs ["Dairy"])])))
                     false [])
  = (Return (JArr []),
     mkState (File (Decoded (JObj [("Categories", strs ["Dairy"])]))) false []).
Proof. reflexivity. Qed.

(** C8 as stated fails: the store [{Categories: [Dairy]}] exists and does
    not have the documented shape, yet [load_categories] returns the
    empty list and signals nothing. *)
Lemma load_categories_silent_on_misspelt_key :
  ~ (forall st d,
        categories_file st = File d ->
        store_conforms (File d) = false ->
        exists x st', load_categories st = (Raise x, st')).
Proof.
  intros H.
  destruct (H (mkState (File (Decoded (JObj [("Categories", strs ["Dairy"])]))) false [])
              (Decoded (JObj [("Categories", strs ["Dairy"])]))
              eq_refl eq_refl) as (x & st' & Hrun).
  rewrite load_categories_misspelt_key in Hrun. discriminate Hrun.
Qed.

(** ** Exceptions stop at the tool boundary *)

Lemma error_only_catches (body : M tool_output) :
  catches body (try_except body error_only).
Proof.
  intros st. unfold try_except.
  destruct (body st) as [[out | x] st']; [reflexivity |].
  eexists. split; reflexivity.
Qed.

Lemma append_to_sheet_handler_catches (sj : json_str) (body : M tool_output) :
  catches body (try_except body (append_to_sheet_handler sj)).
Proof.
  intros st. unfold try_except.
  destruct (body st) as [[out | x] st']; [reflexivity |].
  unfold append_to_sheet_handler.
  destruct (exn_cls x); eexists; split; reflexivity.
Qed.

Lemma catches_never_raises (body tool : M tool_output) :
  catches body tool -> never_raises tool.
Proof.
  intros H st. specialize (H st).
  destruct (body st) as [[out | x] st'].
  - eauto.
  - destruct H as (v & Hrun & _). eauto.
Qed.

(** A body that only ever returns [json.dumps] texts makes a tool that
    does. *)
Lemma catches_returns_json (body tool : M tool_output) :
  catches body tool ->
  (forall st out st', body st = (Return out, st') -> exists v, out = Dumps v) ->
  returns_json tool.
Proof.
  intros H Hbody st. specialize (H st). specialize (Hbody st).
  destruct (body st) as [[out | x] st'].
  - destruct (Hbody out st' eq_refl) as [v ->]. eauto.
  - destruct H as (v & Hrun & _). eauto.
Qed.

Lemma check_line_items_dumps (e : env) (data : json) (items : list json) :
  forall st out st',
    check_line_items e data items st = (Return (Some out), st') ->
    exists v, out = Dumps v.
Proof.
  induction items as [| li rest IH]; intros st out st' H.
  - discriminate H.
  - cbn [check_line_items] in H. unfold bind, lift in H.
    destruct (keys_subset ["item"; "price"; "category"] li) as [[|] | x];
      try discriminate.
    + exact (IH _ _ _ H).
    + inversion H. unfold line_item_error. eauto.
Qed.

Lemma extract_receipt_text_body_dumps (e : env) (image_path : string) :
  forall st out st',
    extract_receipt_text_body e image_path st = (Return out, st') ->
    exists v, out = Dumps v.
Proof.
  intros st out st' H.
  unfold extract_receipt_text_body, load_image_as_base64, bind, lift, ret in H.
  repeat branch. eauto.
Qed.

Lemma structure_receipt_text_body_verbatim (e : env) (raw_text : string) :
  forall st out st',
    structure_receipt_text_body e raw_text st = (Return out, st') ->
    exists s, out = Verbatim s.
Proof.
  intros st out st' H.
  unfold structure_receipt_text_body, bind, lift, ret in H.
  repeat branch. eauto.
Qed.

Lemma append_to_sheet_body_dumps (e : env) (sj : json_str) :
  forall st out st',
    append_to_sheet_body e sj st = (Return out, st') ->
    exists v, out = Dumps v.
Proof.
  intros st out st' H.
  unfold append_to_sheet_body in H. unfold bind at 1 in H.
  destruct (json_load (loads sj) st) as [[data | x] st1]; [| discriminate].
  unfold bind at 1, lift at 1 in H.
  destruct (all_in expected_keys data) as [[|] | x]; try discriminate; simpl in H.
  - unfold bind at 1, lift at 1 in H.
    destruct (py_getitem data "line_items") as [v | x]; [| discriminate].
    destruct (is_list v); simpl in H.
    + unfold bind at 1, lift at 1 in H.
      destruct (py_iter v) as [items | x]; [| discriminate].
      unfold bind at 1 in H.
      destruct (check_line_items e data items st1) as [[[o |] | x] st2] eqn:Hc;
        try discriminate.
      * inversion H; subst. exact (check_line_items_dumps _ _ _ _ _ _ Hc).
      * unfold bind, ret in H.
        destruct (append_receipt e data "Sheet1" st2) as [[r | x] st3];
          [| discriminate].
        inversion H. eauto.
    + inversion H. unfold not_a_list_error. eauto.
  - inversion H. unfold missing_keys_error. eauto.
Qed.

Lemma add_category_body_dumps (name : string) :
  forall st out st',
    add_category_body name st = (Return out, st') -> exists v, out = Dumps v.
Proof.
  intros st out st' H.
  unfold add_category_body in H. unfold bind at 1 in H.
  destruct (load_categories st) as [[cats | x] st1]; [| discriminate].
  unfold bind at 1, lift at 1 in H.
  destruct (py_in name cats) as [[|] | x]; try discriminate; simpl in H.
  - inversion H. eauto.
  - unfold bind, lift, save_categories, dump_categories_file, ret in H.
    destruct (py_append cats (JStr name)); [| discriminate].
    inversion H. eauto.
Qed.

Lemma remove_category_body_dumps (name : string) :
  forall st out st',
    remove_category_body name st = (Return out, st') -> exists v, out = Dumps v.
Proof.
  intros st out st' H.
  unfold remove_category_body in H. unfold bind at 1 in H.
  destruct (load_categories st) as [[cats | x] st1]; [| discriminate].
  unfold bind at 1, lift at 1 in H.
  destruct (py_in name cats) as [[|] | x]; try discriminate; simpl in H.
  - unfold bind, lift, save_categories, dump_categories_file, ret in H.
    destruct (py_remove cats name); [| discriminate].
    inversion H. eauto.
  - inversion H. eauto.
Qed.

(** A reply of the classifier that is plain prose comes back as it is. *)
Example structure_receipt_text_prose :
  structure_receipt_text (env_replying ["Sorry, I cannot read this receipt."])
    "MILK 3.50" fresh_state
  = (Return (Verbatim "Sorry, I cannot read this receipt."),
     mkState (File (Decoded (categories_doc (strs default_categories)))) false []).
Proof. reflexivity. Qed.

(** C9 as stated fails: [structure_receipt_text] does not always return a
    text written by [json.dumps]; on success it hands back the
    classifier's reply, whatever it is. *)
Lemma structure_receipt_text_not_json :
  ~ (forall e raw_text, returns_json (structure_receipt_text e raw_text)).
Proof.
  intros H.
  destruct (H (env_replying ["Sorry, I cannot read this receipt."])
              "MILK 3.50" fresh_state) as (v & st' & Hrun).
  rewrite structure_receipt_text_prose in Hrun. discriminate Hrun.
Qed.

(** C9, as the code has it. No tool lets an exception out: what the body
    of a tool raises is turned into a JSON object with an [error] field.
    [extract_receipt_text], [append_to_sheet], [add_category] and
    [remove_category] always return a text written by [json.dumps];
    [structure_receipt_text] returns, when nothing is raised, the
    classifier's reply as it is. *)
Theorem tools_catch_exceptions (e : env) :
  (forall image_path,
      catches (extract_receipt_text_body e image_path)
              (extract_receipt_text e image_path) /\
      never_raises (extract_receipt_text e image_path) /\
      returns_json (extract_receipt_text e image_path)) /\
  (forall raw_text,
      catches (structure_receipt_text_body e raw_text)
              (structure_receipt_text e raw_text) /\
      never_raises (structure_receipt_text e raw_text) /\
      (forall st out st',
          structure_receipt_text_body e raw_text st = (Return out, st') ->
          exists reply, out = Verbatim reply)) /\
  (forall structured_json,
      catches (append_to_sheet_body e structured_json)
              (append_to_sheet e structured_json) /\
      never_raises (append_to_sheet e structured_json) /\
      returns_json (append_to_sheet e structured_json)) /\
  (forall new_category,
      catches (add_category_body new_category) (add_category new_category) /\
      never_raises (add_category new_category) /\
      returns_json (add_category new_category)) /\
  (forall category,
      catches (remove_category_body category) (remove_category category) /\
      never_raises (remove_category category) /\
      returns_json (remove_category category)).
Proof.
  repeat match goal with |- _ /\ _ => split end.
  - intros p. pose proof (error_only_catches (extract_receipt_text_body e p)) as C.
    split; [exact C | split].
    + exact (catches_never_raises _ _ C).
    + exact (catches_returns_json _ _ C (extract_receipt_text_body_dumps e p)).
  - intros raw. pose proof (error_only_catches (structure_receipt_text_body e raw)) as C.
    split; [exact C | split].
    + exact (catches_never_raises _ _ C).
    + exact (structure_receipt_text_body_verbatim e raw).
  - intros sj.
    pose proof (append_to_sheet_handler_catches sj (append_to_sheet_body e sj)) as C.
    split; [exact C | split].
    + exact (catches_never_raises _ _ C).
    + exact (catches_returns_json _ _ C (append_to_sheet_body_dumps e sj)).
  - intros n. pose proof (error_only_catches (add_category_body n)) as C.
    split; [exact C | split].
    + exact (catches_never_raises _ _ C).
    + exact (catches_returns_json _ _ C (add_category_body_dumps n)).
  - intros n. pose proof (error_only_catches (remove_category_body n)) as C.
    split; [exact C | split].
    + exact (catches_never_raises _ _ C).
    + exact (catches_returns_json _ _ C (remove_category_body_dumps n)).
Qed.

(** Collaborators that fail: the image cannot be opened, Gemini and
    Sheets raise.  Every tool still returns an [error] payload. *)
Example failing_collaborators_are_reported :
  let broken :=
    mkEnv (fun _ => "<value>")
          (Raise (mkExn (OtherError "RefreshError") "invalid_grant"))
          (fun _ => Raise (mkExn (OtherError "HttpError") "403"))
          (fun _ => Raise (mkExn (OtherError "FileNotFoundError") "No such file"))
          (fun _ => Raise (mkExn (OtherError "ResourceExhausted") "429"))
          DLV in
  extract_receipt_text broken "r.jpg" fresh_state
  = (Return (Dumps (JObj [("error", JStr "No such file")])), fresh_state) /\
  fst (structure_receipt_text broken "MILK 3.50" fresh_state)
  = Return (Dumps (JObj [("error", JStr "429")])) /\
  fst (append_to_sheet broken
         (mkJsonStr "{...}" (Decoded (receipt [line_item "A" 1 "Snacks"])))
         fresh_state)
  = Return (Dumps (JObj [("error", JStr "invalid_grant"); ("raw", JStr "{...}")])) /\
  fst (add_category "Tea" (mkState (File (DecodeError "Expecting value")) false []))
  = Return (Dumps (JObj [("error", JStr "Expecting value")])) /\
  fst (remove_category "Tea" (mkState (File (Decoded (JNum (Int 5)))) false []))
  = Return (Dumps (JObj [("error", JStr "'int' object has no attribute 'get'")])).
Proof. repeat split. Qed.

(** ** Validation in [append_to_sheet] *)

Section Validation.

Variable e : env.

Lemma all_in_object (keys : list string) (d : dict) :
  all_in keys (JObj d) = Return (forallb (fun k => has_key k d) keys).
Proof.
  induction keys as [| k keys IH]; [reflexivity |].
  cbn [all_in forallb py_in]. destruct (has_key k d); [exact IH | reflexivity].
Qed.

Lemma forallb_permutation {A} (f : A -> bool) (l l' : list A) :
  Permutation l l' -> forallb f l = forallb f l'.
Proof.
  induction 1 as [| x l l' _ IH | x y l | l l' l'' _ IH1 _ IH2]; simpl.
  - reflexivity.
  - rewrite IH. reflexivity.
  - destruct (f x), (f y); reflexivity.
  - rewrite IH1. exact IH2.
Qed.

Lemma all_in_answers (f : string -> bool) (keys : list string) (data : json) :
  (forall k, py_in k data = Return (f k)) ->
  all_in keys data = Return (forallb f keys).
Proof.
  intros Hf. induction keys as [| k keys IH]; [reflexivity |].
  cbn [all_in forallb]. rewrite Hf. destruct (f k); [exact IH | reflexivity].
Qed.

Lemma all_in_raises (x : exn) (keys : list string) (data : json) :
  (forall k, py_in k data = Raise x) ->
  keys <> [] ->
  all_in keys data = Raise x.
Proof.
  intros Hx Hkeys. destruct keys as [| k keys]; [contradiction |].
  cbn [all_in]. rewrite Hx. reflexivity.
Qed.

(** The order in which the set [expected_keys] is iterated does not
    change the outcome of the test. *)
Lemma all_in_any_order (keys keys' : list string) (data : json) :
  Permutation keys keys' -> all_in keys data = all_in keys' data.
Proof.
  intros Hp.
  assert (Hnil : keys <> [] -> keys' <> []).
  { intros Hk ->. apply Permutation_sym, Permutation_nil in Hp. contradiction. }
  destruct data as [| b | n | s | l | d].
  - destruct keys; [apply Permutation_nil in Hp; subst; reflexivity |].
    rewrite (all_in_raises _ (s :: keys) JNull (fun _ => eq_refl)) by discriminate.
    rewrite (all_in_raises _ keys' JNull (fun _ => eq_refl)); [reflexivity |].
    apply Hnil. discriminate.
  - destruct keys; [apply Permutation_nil in Hp; subst; reflexivity |].
    rewrite (all_in_raises _ (s :: keys) (JBool b) (fun _ => eq_refl)) by discriminate.
    rewrite (all_in_raises _ keys' (JBool b) (fun _ => eq_refl)); [reflexivity |].
    apply Hnil. discriminate.
  - destruct keys; [apply Permutation_nil in Hp; subst; reflexivity |].
    rewrite (all_in_raises _ (s :: keys) (JNum n) (fun _ => eq_refl)) by discriminate.
    rewrite (all_in_raises _ keys' (JNum n) (fun _ => eq_refl)); [reflexivity |].
    apply Hnil. discriminate.
  - rewrite !(all_in_answers (fun k => str_contains k s)) by reflexivity.
    rewrite (forallb_permutation _ _ _ Hp). reflexivity.
  - rewrite !(all_in_answers (fun k => existsb (is_str k) l)) by reflexivity.
    rewrite (forallb_permutation _ _ _ Hp). reflexivity.
  - rewrite !(all_in_answers (fun k => has_key k d)) by reflexivity.
    rewrite (forallb_permutation _ _ _ Hp). reflexivity.
Qed.


Lemma keys_subset_object (d : dict) :
  keys_subset ["item"; "price"; "category"] (JObj d)
  = Return (valid_line_item (JObj d)).
Proof.
  simpl. destruct (has_key "item" d), (has_key "price" d), (has_key "category" d);
    reflexivity.
Qed.

Lemma check_line_items_valid (data : json) (items : list json) (st : state) :
  forallb valid_line_item items = true ->
  check_line_items e data items st = (Return None, st).
Proof.
  induction items as [| li rest IH]; intros H; [reflexivity |].
  simpl in H. apply andb_prop in H as [Hli Hrest].
  destruct li; try discriminate.
  cbn [check_line_items]. unfold bind, lift. rewrite keys_subset_object, Hli.
  exact (IH Hrest).
Qed.


(** A list with an element that is not a valid line item never passes the
    loop: it ends in an error payload or in an exception. *)
Lemma check_line_items_invalid (data : json) (items : list json) (st : state) :
  forallb valid_line_item items = false ->
  (exists li, check_line_items e data items st
              = (Return (Some (line_item_error e data li)), st)) \/
  (exists x, check_line_items e data items st = (Raise x, st)).
Proof.
  induction items as [| li rest IH]; intros H; [discriminate |].
  simpl in H. apply andb_false_iff in H.
  cbn [check_line_items]. unfold bind, lift.
  destruct li; try (right; eexists; reflexivity).
  rewrite keys_subset_object.
  destruct (valid_line_item (JObj d)) eqn:Hli; simpl.
  - apply IH. destruct H as [H | H]; [discriminate | exact H].
  - left. eexists. reflexivity.
Qed.

Lemma expected_keys_validated (d : dict) :
  forallb (fun k => has_key k d) expected_keys = true ->
  exists v, dict_get d "line_items" = Some v /\
            has_key "vendor" d = true /\ has_key "date" d = true.
Proof.
  simpl. intros H.
  apply andb_prop in H as [Hv H]. apply andb_prop in H as [Hd H].
  apply andb_prop in H as [Hl _].
  unfold has_key in Hl. destruct (dict_get d "line_items") as [v |]; [| discriminate].
  exists v. auto.
Qed.

Lemma append_to_sheet_body_validated (sj : json_str) (data : json) (st : state) :
  loads sj = Decoded data ->
  validated data = true ->
  append_to_sheet_body e sj st
  = (result <- append_receipt e data "Sheet1" ;; ret (Dumps result)) st.
Proof.
  intros Hloads Hval.
  destruct (validated_shape data Hval) as (d & l & -> & Hv & Hd & Hl & Hall).
  assert (Hkeys : forallb (fun k => has_key k d) expected_keys = true).
  { simpl. rewrite Hv, Hd. unfold has_key. rewrite Hl. reflexivity. }
  unfold append_to_sheet_body. rewrite Hloads.
  unfold bind at 1. cbn [json_load]. unfold ret at 1.
  unfold bind at 1, lift at 1. rewrite all_in_object, Hkeys. cbn [negb].
  unfold bind at 1, lift at 1. cbn [py_getitem]. rewrite Hl. cbn [is_list negb].
  unfold bind at 1, lift at 1. cbn [py_iter].
  unfold bind at 1. rewrite (check_line_items_valid _ l st Hall).
  reflexivity.
Qed.

(** A candidate that passes the checks reaches [append_receipt]. *)
Lemma append_to_sheet_accepts (sj : json_str) (data : json) (st : state) :
  loads sj = Decoded data ->
  validated data = true ->
  append_to_sheet e sj st = append_validated e sj data st.
Proof.
  intros Hloads Hval.
  unfold append_to_sheet, append_validated, try_except.
  rewrite (append_to_sheet_body_validated sj data st Hloads Hval). reflexivity.
Qed.

(** Anything else is turned away: the tool returns an [error] payload and
    neither the store nor the sheet is touched. *)
Lemma append_to_sheet_rejects (sj : json_str) (st : state) :
  match loads sj with
  | Decoded data => validated data = false
  | _ => True
  end ->
  exists v, append_to_sheet e sj st = (Return (Dumps v), st) /\
            has_error_field v = true.
Proof.
  intros H.
  unfold append_to_sheet, try_except, append_to_sheet_body.
  destruct (loads sj) as [data | msg | x0];
    [| eexists; split; reflexivity
     | cbn; unfold append_to_sheet_handler;
       destruct (exn_cls x0); eexists; split; reflexivity].
  unfold bind at 1. cbn [json_load]. unfold ret at 1.
  unfold bind at 1, lift at 1.
  destruct (all_in expected_keys data) as [[|] | x] eqn:Hall; cbn [negb].
  - unfold bind at 1, lift at 1.
    destruct data; try discriminate.
    + (* a str that contains the three keys *)
      cbn [py_getitem]. eexists. split; reflexivity.
    + (* a list that contains the three keys *)
      cbn [py_getitem]. eexists. split; reflexivity.
    + rewrite all_in_object in Hall. injection Hall as Hkeys.
      destruct (expected_keys_validated d Hkeys) as (v & Hl & Hv & Hd).
      cbn [py_getitem]. rewrite Hl.
      destruct v; cbn [is_list negb]; try (eexists; split; reflexivity).
      unfold bind at 1, lift at 1. cbn [py_iter]. unfold bind at 1.
      assert (Hbad : forallb valid_line_item l = false).
      { simpl in H. rewrite Hv, Hd, Hl in H. exact H. }
      destruct (check_line_items_invalid (JObj d) l st Hbad) as [[li Hc] | [x Hc]];
        rewrite Hc.
      * eexists. split; reflexivity.
      * unfold append_to_sheet_handler.
        destruct (exn_cls x); eexists; split; reflexivity.
  - eexists. split; reflexivity.
  - unfold append_to_sheet_handler.
    destruct (exn_cls x); eexists; split; reflexivity.
Qed.

End Validation.





(** C10. A JSON object that has [vendor], [date] and [line_items], with
    [line_items] the empty list, passes validation: the empty batch is
    appended and the tool returns [{status: success, rows_added: 0}]. *)
Theorem append_to_sheet_empty_receipt
    (e : env) (sj : json_str) (d : dict) (st : state) :
  loads sj = Decoded (JObj d) ->
  has_key "vendor" d = true ->
  has_key "date" d = true ->
  dict_get d "line_items" = Some (JArr []) ->
  sheets_ok e st "Sheet1" [] ->
  append_to_sheet e sj st
  = (Return (Dumps (JObj [("status", JStr "success");
                          ("rows_added", JNum (Int 0))])),
     mkState (categories_file st) true (requests st ++ [("Sheet1!A:D", [])])).
Proof.
  intros Hloads Hv Hd Hl Hok.
  assert (Hval : validated (JObj d) = true).
  { simpl. rewrite Hv, Hd, Hl. reflexivity. }
  assert (Hitems : line_items_of (JObj d) = []).
  { exact (line_items_of_validated d [] Hl). }
  rewrite (append_to_sheet_accepts e sj (JObj d) st Hloads Hval).
  unfold append_validated, try_except, bind.
  rewrite (append_receipt_validated e (JObj d) "Sheet1" st Hval)
    by (rewrite Hitems; exact Hok).
  rewrite Hitems. reflexivity.
Qed.

Lemma append_to_sheet_empty_receipt_witness :
  append_to_sheet env_ok (mkJsonStr "{...}" (Decoded (receipt []))) fresh_state
  = (Return (Dumps (JObj [("status", JStr "success");
                          ("rows_added", JNum (Int 0))])),
     mkState NoFile true ([] ++ [("Sheet1!A:D", [])])).
Proof.
  apply (append_to_sheet_empty_receipt env_ok
           (mkJsonStr "{...}" (Decoded (receipt [])))
           [("vendor", JStr "Corner Shop"); ("date", JStr "01/02/2024");
            ("line_items", JArr [])]
           fresh_state); try reflexivity.
  split; [right |]; reflexivity.
Defined.

(** * Further properties of the code *)

(** ** The registry tools on a store that is a JSON object *)

Lemma add_category_run (name : string) (d : dict) (l : list json) (st : state) :
  categories_file st = File (Decoded (JObj d)) ->
  stored_categories d = JArr l ->
  add_category name st
  = if existsb (is_str name) l
    then (Return (Dumps (JObj [("status", JStr "exists"); ("categories", JArr l)])), st)
    else (Return (Dumps (JObj [("status", JStr "added");
                               ("categories", JArr (l ++ [JStr name]))])),
          with_file (File (Decoded (categories_doc (JArr (l ++ [JStr name]))))) st).
Proof.
  intros Hfile Hl.
  unfold add_category, try_except, add_category_body.
  unfold bind at 1. rewrite (load_categories_object d st Hfile).
  fold (stored_categories d). rewrite Hl.
  unfold bind, lift, py_in. destruct (existsb (is_str name) l); reflexivity.
Qed.

Lemma remove_category_run (name : string) (d : dict) (l : list json) (st : state) :
  categories_file st = File (Decoded (JObj d)) ->
  stored_categories d = JArr l ->
  remove_category name st
  = if existsb (is_str name) l
    then (Return (Dumps (JObj [("status", JStr "removed");
                               ("categories", JArr (remove_first name l))])),
          with_file (File (Decoded (categories_doc (JArr (remove_first name l))))) st)
    else (Return (Dumps (JObj [("status", JStr "not_found"); ("categories", JArr l)])),
          st).
Proof.
  intros Hfile Hl.
  unfold remove_category, try_except, remove_category_body.
  unfold bind at 1. rewrite (load_categories_object d st Hfile).
  fold (stored_categories d). rewrite Hl.
  unfold bind, lift, py_in, py_remove.
  destruct (existsb (is_str name) l); reflexivity.
Qed.

Lemma stored_categories_doc (v : json) :
  stored_categories [("categories", v)] = v.
Proof. reflexivity. Qed.

Lemma existsb_is_str_false (name : string) (cs : list string) :
  ~ In name cs -> existsb (is_str name) (map JStr cs) = false.
Proof.
  intros Hin. destruct (existsb (is_str name) (map JStr cs)) eqn:E; [| reflexivity].
  apply existsb_is_str in E. contradiction.
Qed.

Lemma remove_first_strs (name : string) (cs : list string) :
  remove_first name (map JStr cs) = map JStr (remove_one name cs).
Proof.
  induction cs as [| c cs IH]; [reflexivity |].
  simpl. destruct (String.eqb c name); [reflexivity |].
  simpl. rewrite IH. reflexivity.
Qed.


Lemma count_occ_remove_one (name c : string) (cs : list string) :
  count_occ string_dec (remove_one name cs) c
  = if string_dec c name
    then Nat.pred (count_occ string_dec cs c)
    else count_occ string_dec cs c.
Proof.
  induction cs as [| x cs IH]; simpl.
  - destruct (string_dec c name); reflexivity.
  - destruct (String.eqb_spec x name) as [-> | Hne].
    + destruct (string_dec name c) as [<- | Hnc].
      * destruct (string_dec name name); [reflexivity | contradiction].
      * destruct (string_dec c name) as [-> | _]; [contradiction | reflexivity].
    + simpl. destruct (string_dec x c) as [-> | Hxc].
      * destruct (string_dec c name) as [-> | _]; [contradiction | ].
        rewrite IH. destruct (string_dec c name); [contradiction | reflexivity].
      * exact IH.
Qed.

Lemma load_categories_absent (st : state) :
  categories_file st = NoFile ->
  load_categories st
  = (Return (strs default_categories),
     with_file (File (Decoded (categories_doc (strs default_categories)))) st).
Proof.
  intros H. unfold load_categories, bind, get_state. rewrite H. reflexivity.
Qed.

(** [remove_category] of a stored name takes out its first occurrence and
    nothing else: the answer is [removed] with the shorter list, which is
    also what the store then holds; the name occurs once less, every other
    name as often as before. *)
Theorem remove_category_removes_first (name : string) (cs : list string) (st : state) :
  categories_file st = File (Decoded (categories_doc (strs cs))) ->
  In name cs ->
  remove_category name st
  = (Return (Dumps (JObj [("status", JStr "removed");
                          ("categories", strs (remove_one name cs))])),
     with_file (File (Decoded (categories_doc (strs (remove_one name cs))))) st) /\
  forall c,
    count_occ string_dec (remove_one name cs) c
    = if string_dec c name
      then Nat.pred (count_occ string_dec cs c)
      else count_occ string_dec cs c.
Proof.
  intros Hfile Hin. split; [| intros c; apply count_occ_remove_one].
  rewrite (remove_category_run name _ (map JStr cs) st Hfile (stored_categories_doc _)).
  rewrite (proj2 (existsb_is_str name cs) Hin).
  unfold strs. rewrite remove_first_strs. reflexivity.
Qed.

Lemma remove_category_removes_first_witness :
  remove_category "Meat"
    (mkState (File (Decoded (categories_doc (strs ["Meat"; "Dairy"; "Meat"])))) false [])
  = (Return (Dumps (JObj [("status", JStr "removed");
                          ("categories", strs ["Dairy"; "Meat"])])),
     mkState (File (Decoded (categories_doc (strs ["Dairy"; "Meat"])))) false []).
Proof.
  apply (proj1 (remove_category_removes_first "Meat" ["Meat"; "Dairy"; "Meat"]
                  (mkState (File (Decoded (categories_doc
                                             (strs ["Meat"; "Dairy"; "Meat"])))) false [])
                  eq_refl (or_introl eq_refl))).
Defined.





(** [add_category] keeps the stored list free of duplicates: from a list
    without duplicates it leaves one without duplicates that contains the
    name and every name that was there. *)
Theorem add_category_keeps_unique (name : string) (cs : list string) (st : state) :
  categories_file st = File (Decoded (categories_doc (strs cs))) ->
  NoDup cs ->
  exists cs',
    categories_file (snd (add_category name st))
    = File (Decoded (categories_doc (strs cs'))) /\
    NoDup cs' /\ In name cs' /\ incl cs cs'.
Proof.
  intros Hfile Hnd.
  rewrite (add_category_run name _ (map JStr cs) st Hfile (stored_categories_doc _)).
  destruct (existsb (is_str name) (map JStr cs)) eqn:E.
  - exists cs. apply existsb_is_str in E. simpl.
    repeat split; [exact Hfile | exact Hnd | exact E | apply incl_refl].
  - exists (cs ++ [name]). simpl. unfold strs. rewrite map_app.
    repeat split.
    + apply NoDup_app; [exact Hnd | repeat constructor; intros [] | ].
      intros c Hc [<- | []]. apply existsb_is_str in Hc. congruence.
    + apply in_or_app. right. left. reflexivity.
    + apply incl_appl, incl_refl.
Qed.

Lemma add_category_keeps_unique_witness :
  exists cs',
    categories_file
      (snd (add_category "Tea"
              (mkState (File (Decoded (categories_doc (strs default_categories))))
                 false [])))
    = File (Decoded (categories_doc (strs cs'))) /\
    NoDup cs' /\ In "Tea" cs' /\ incl default_categories cs'.
Proof.
  apply (add_category_keeps_unique "Tea" default_categories
           (mkState (File (Decoded (categories_doc (strs default_categories)))) false [])
           eq_refl).
  unfold default_categories.
  repeat (constructor; [simpl; intuition discriminate |]). constructor.
Defined.

(** [add_category] is idempotent: whatever the first call did, a second
    call with the same name answers [exists] and leaves the state of the
    first call as it is. *)
Theorem add_category_twice (name : string) (d : dict) (l : list json) (st : state) :
  categories_file st = File (Decoded (JObj d)) ->
  stored_categories d = JArr l ->
  exists l',
    add_category name (snd (add_category name st))
    = (Return (Dumps (JObj [("status", JStr "exists"); ("categories", JArr l')])),
       snd (add_category name st)) /\
    existsb (is_str name) l' = true.
Proof.
  intros Hfile Hl.
  rewrite (add_category_run name d l st Hfile Hl).
  destruct (existsb (is_str name) l) eqn:E; cbn [snd].
  - exists l. rewrite (add_category_run name d l st Hfile Hl), E. auto.
  - exists (l ++ [JStr name]).
    assert (E' : existsb (is_str name) (l ++ [JStr name]) = true).
    { rewrite existsb_app. simpl. rewrite String.eqb_refl.
      rewrite orb_true_r. reflexivity. }
    rewrite (add_category_run name [("categories", JArr (l ++ [JStr name]))]
               (l ++ [JStr name])
               (with_file (File (Decoded (categories_doc (JArr (l ++ [JStr name]))))) st)
               eq_refl eq_refl).
    rewrite E'. auto.
Qed.

Lemma add_category_twice_witness :
  exists l',
    add_category "Tea"
      (snd (add_category "Tea"
              (mkState (File (Decoded (categories_doc (strs ["Dairy"])))) false [])))
    = (Return (Dumps (JObj [("status", JStr "exists"); ("categories", JArr l')])),
       snd (add_category "Tea"
              (mkState (File (Decoded (categories_doc (strs ["Dairy"])))) false []))) /\
    existsb (is_str "Tea") l' = true.
Proof.
  apply (add_category_twice "Tea" [("categories", strs ["Dairy"])] [JStr "Dairy"]
           (mkState (File (Decoded (categories_doc (strs ["Dairy"])))) false []));
    reflexivity.
Defined.

(** On a store that does not exist yet, [add_category] first creates it
    with the defaults: a default name is answered [exists] (and the file
    now holds the defaults), any other name is appended to the defaults. *)
Theorem add_category_bootstraps (name : string) (st : state) :
  categories_file st = NoFile ->
  (In name default_categories ->
   add_category name st
   = (Return (Dumps (JObj [("status", JStr "exists");
                           ("categories", strs default_categories)])),
      with_file (File (Decoded (categories_doc (strs default_categories)))) st)) /\
  (~ In name default_categories ->
   add_category name st
   = (Return (Dumps (JObj [("status", JStr "added");
                           ("categories", strs (default_categories ++ [name]))])),
      with_file (File (Decoded (categories_doc (strs (default_categories ++ [name])))))
        st)).
Proof.
  intros Hfile. split; intros Hin.
  - unfold add_category, try_except, add_category_body.
    unfold bind at 1. rewrite (load_categories_absent st Hfile).
    unfold bind, lift, py_in, strs.
    rewrite (proj2 (existsb_is_str name default_categories) Hin). reflexivity.
  - unfold add_category, try_except, add_category_body.
    unfold bind at 1. rewrite (load_categories_absent st Hfile).
    unfold bind, lift, py_in, strs.
    rewrite (existsb_is_str_false name default_categories Hin).
    cbn [negb py_append]. rewrite map_app. reflexivity.
Qed.

Lemma add_category_bootstraps_witness :
  add_category "Dairy" fresh_state
  = (Return (Dumps (JObj [("status", JStr "exists");
                          ("categories", strs default_categories)])),
     with_file (File (Decoded (categories_doc (strs default_categories)))) fresh_state).
Proof.
  apply (proj1 (add_category_bootstraps "Dairy" fresh_state eq_refl)).
  simpl. tauto.
Defined.

(** A store whose text is not JSON is never overwritten by the registry
    tools: both answer with the decoder's message as [error] and leave the
    file as it is. *)
Theorem registry_tools_keep_unreadable_store (name msg : string) (st : state) :
  categories_file st = File (DecodeError msg) ->
  add_category name st = (Return (Dumps (JObj [("error", JStr msg)])), st) /\
  remove_category name st = (Return (Dumps (JObj [("error", JStr msg)])), st).
Proof.
  intros Hfile.
  unfold add_category, remove_category, try_except,
    add_category_body, remove_category_body, load_categories, bind, get_state.
  rewrite Hfile. split; reflexivity.
Qed.

Lemma registry_tools_keep_unreadable_store_witness :
  add_category "Tea" (mkState (File (DecodeError "Expecting value")) false [])
  = (Return (Dumps (JObj [("error", JStr "Expecting value")])),
     mkState (File (DecodeError "Expecting value")) false []) /\
  remove_category "Tea" (mkState (File (DecodeError "Expecting value")) false [])
  = (Return (Dumps (JObj [("error", JStr "Expecting value")])),
     mkState (File (DecodeError "Expecting value")) false []).
Proof.
  apply (registry_tools_keep_unreadable_store "Tea" "Expecting value"
           (mkState (File (DecodeError "Expecting value")) false [])).
  reflexivity.
Defined.

(** When [add_category] appends, it rewrites the whole document: the file
    then holds the one key [categories], whatever other keys it had; and a
    document without that key is replaced by one that lists the new name
    alone. *)
Theorem add_category_rewrites_document
    (name : string) (d : dict) (cs : list string) (st : state) :
  categories_file st = File (Decoded (JObj d)) ->
  stored_categories d = strs cs ->
  ~ In name cs ->
  categories_file (snd (add_category name st))
  = File (Decoded (JObj [("categories", strs (cs ++ [name]))])).
Proof.
  intros Hfile Hl Hin.
  rewrite (add_category_run name d (map JStr cs) st Hfile Hl).
  rewrite (existsb_is_str_false name cs Hin). cbn [snd with_file categories_file].
  unfold strs. rewrite map_app. reflexivity.
Qed.

Lemma add_category_rewrites_document_witness :
  categories_file
    (snd (add_category "Tea"
            (mkState (File (Decoded (JObj [("Categories", strs ["Dairy"]);
                                           ("owner", JStr "me")]))) false [])))
  = File (Decoded (JObj [("categories", strs ([] ++ ["Tea"]))])).
Proof.
  apply (add_category_rewrites_document "Tea"
           [("Categories", strs ["Dairy"]); ("owner", JStr "me")] []
           (mkState (File (Decoded (JObj [("Categories", strs ["Dairy"]);
                                          ("owner", JStr "me")]))) false []));
    [reflexivity | reflexivity | intros []].
Defined.

(** [load_categories] settles after one call: a second call gives the
    same answer (a list or an exception) and no longer changes the
    state. *)
Theorem load_categories_stable (st st1 : state) (r : result json) :
  load_categories st = (r, st1) ->
  load_categories st1 = (r, st1).
Proof.
  intros H. destruct (categories_file st) as [| f] eqn:Hfile.
  - rewrite (load_categories_absent st Hfile) in H. inversion H; subst.
    apply (load_categories_object [("categories", strs default_categories)]).
    reflexivity.
  - assert (Hst : st1 = st).
    { unfold load_categories, bind, get_state in H. rewrite Hfile in H.
      destruct f as [v | msg | x]; cbn in H.
      - unfold lift in H. inversion H. reflexivity.
      - inversion H. reflexivity.
      - inversion H. reflexivity. }
    subst st1. exact H.
Qed.

Lemma load_categories_stable_witness :
  load_categories
    (mkState (File (Decoded (categories_doc (strs default_categories)))) false [])
  = (Return (strs default_categories),
     mkState (File (Decoded (categories_doc (strs default_categories)))) false []).
Proof.
  apply (load_categories_stable fresh_state). reflexivity.
Defined.

(** When the value stored under [categories] is not a list, neither
    registry tool writes to the store. *)
Theorem registry_tools_need_a_list (name : string) (d : dict) (st : state) :
  categories_file st = File (Decoded (JObj d)) ->
  is_list (stored_categories d) = false ->
  snd (add_category name st) = st /\ snd (remove_category name st) = st.
Proof.
  intros Hfile Hl. split.
  - unfold add_category, try_except, add_category_body.
    unfold bind at 1. rewrite (load_categories_object d st Hfile).
    fold (stored_categories d).
    destruct (stored_categories d) as [| b | n | s | l | d'];
      try discriminate; unfold bind, lift; cbn [py_in]; try reflexivity.
    + destruct (str_contains name s); reflexivity.
    + destruct (has_key name d'); reflexivity.
  - unfold remove_category, try_except, remove_category_body.
    unfold bind at 1. rewrite (load_categories_object d st Hfile).
    fold (stored_categories d).
    destruct (stored_categories d) as [| b | n | s | l | d'];
      try discriminate; unfold bind, lift; cbn [py_in]; try reflexivity.
    + destruct (str_contains name s); reflexivity.
    + destruct (has_key name d'); reflexivity.
Qed.

Lemma registry_tools_need_a_list_witness :
  snd (add_category "Tea"
         (mkState (File (Decoded (categories_doc (JStr "Dairy")))) false []))
  = mkState (File (Decoded (categories_doc (JStr "Dairy")))) false [] /\
  snd (remove_category "Tea"
         (mkState (File (Decoded (categories_doc (JStr "Dairy")))) false []))
  = mkState (File (Decoded (categories_doc (JStr "Dairy")))) false [].
Proof.
  apply (registry_tools_need_a_list "Tea" [("categories", JStr "Dairy")]
           (mkState (File (Decoded (categories_doc (JStr "Dairy")))) false []));
    reflexivity.
Defined.

(** ** [append_receipt] beyond validated receipts *)

Lemma append_rows_state (date vendor : json) (items : list json) :
  forall values st, snd (append_rows date vendor items values st) = st.
Proof.
  induction items as [| li rest IH]; intros values st; [reflexivity |].
  cbn [append_rows]. unfold bind at 1, lift at 1.
  destruct (py_get li "item" (JStr EmptyString)); [| reflexivity].
  unfold bind at 1, lift at 1.
  destruct (py_get li "price" (JStr EmptyString)); [| reflexivity].
  unfold bind at 1, lift at 1.
  destruct (py_get li "category" (JStr EmptyString)); [| reflexivity].
  apply IH.
Qed.

Lemma append_rows_objects (date vendor : json) (items : list json) :
  forallb is_object items = true ->
  forall values st,
    append_rows date vendor items values st
    = (Return (values ++ map (fun li => [date; vendor; get_or_blank li "item";
                                         get_or_blank li "price";
                                         get_or_blank li "category"])
                             items), st).
Proof.
  induction items as [| li rest IH]; intros Hall values st.
  - simpl. rewrite app_nil_r. reflexivity.
  - simpl in Hall. apply andb_prop in Hall as [Hli Hrest].
    destruct li; try discriminate.
    cbn [append_rows]. unfold bind, lift. cbn [py_get].
    fold (get_or_blank (JObj d) "item"). fold (get_or_blank (JObj d) "price").
    fold (get_or_blank (JObj d) "category").
    change (append_rows date vendor rest
              (values ++ [[date; vendor; get_or_blank (JObj d) "item";
                           get_or_blank (JObj d) "price";
                           get_or_blank (JObj d) "category"]]) st
            = (Return (values ++
                       [date; vendor; get_or_blank (JObj d) "item";
                        get_or_blank (JObj d) "price";
                        get_or_blank (JObj d) "category"]
                       :: map (fun li => [date; vendor; get_or_blank li "item";
                                          get_or_blank li "price";
                                          get_or_blank li "category"]) rest), st)).
    rewrite (IH Hrest). rewrite <- app_assoc. reflexivity.
Qed.

(** What the start of [append_receipt] does: nothing when the service is
    there, [auth] otherwise. *)
Lemma ensure_service (e : env) (st : state) :
  (if negb (service st) then auth e else ret tt) st
  = if service st then (Return tt, st)
    else match sheets_auth e with
         | Return _ => (Return tt, mkState (categories_file st) true (requests st))
         | Raise x => (Raise x, st)
         end.
Proof. destruct (service st); reflexivity. Qed.

(** Whatever it is given, [append_receipt] leaves the category store
    alone and sends at most one request, to the range of its sheet. *)
Lemma append_receipt_effect (e : env) (data : json) (sheet_name : string)
    (st st' : state) (r : result json) :
  append_receipt e data sheet_name st = (r, st') ->
  categories_file st' = categories_file st /\
  (requests st' = requests st \/
   exists values,
     requests st' = requests st ++ [((sheet_name ++ "!A:D")%string, values)]).
Proof.
  unfold append_receipt. unfold bind at 1, get_state.
  unfold bind at 1. rewrite ensure_service.
  assert (Hgo : forall st1,
             categories_file st1 = categories_file st ->
             requests st1 = requests st ->
             (vendor <- lift (py_get data "vendor" (JStr EmptyString)) ;;
              date <- lift (py_get data "date" (JStr EmptyString)) ;;
              line_items <- lift (py_get data "line_items" (JArr [])) ;;
              items <- lift (py_iter line_items) ;;
              values <- append_rows date vendor items [] ;;
              execute e ((sheet_name ++ "!A:D")%string, values) ;;
              ret (success (length values))) st1 = (r, st') ->
             categories_file st' = categories_file st /\
             (requests st' = requests st \/
              exists values,
                requests st' = requests st ++ [((sheet_name ++ "!A:D")%string, values)])).
  { intros st1 Hc Hr H.
    unfold bind at 1, lift at 1 in H.
    destruct (py_get data "vendor" (JStr EmptyString)) as [vendor | x];
      [| inversion H; subst; auto].
    unfold bind at 1, lift at 1 in H.
    destruct (py_get data "date" (JStr EmptyString)) as [date | x];
      [| inversion H; subst; auto].
    unfold bind at 1, lift at 1 in H.
    destruct (py_get data "line_items" (JArr [])) as [lis | x];
      [| inversion H; subst; auto].
    unfold bind at 1, lift at 1 in H.
    destruct (py_iter lis) as [items | x]; [| inversion H; subst; auto].
    unfold bind at 1 in H.
    pose proof (append_rows_state date vendor items [] st1) as Hs.
    destruct (append_rows date vendor items [] st1) as [[values | x] st2];
      simpl in Hs; subst st2; [| inversion H; subst; auto].
    unfold bind, execute, ret in H.
    destruct (sheets_execute e ((sheet_name ++ "!A:D")%string, values));
      inversion H; subst; [| auto].
    split; [exact Hc |]. right. exists values. cbn. rewrite Hr. reflexivity. }
  destruct (service st).
  - exact (Hgo st eq_refl eq_refl).
  - destruct (sheets_auth e) as [[] | x].
    + exact (Hgo (mkState (categories_file st) true (requests st)) eq_refl eq_refl).
    + intros H. inversion H; subst. auto.
Qed.

(** Called on a receipt that was not validated, [append_receipt] fills in
    blanks: for an object whose [line_items] (none, if the key is absent)
    are all objects, each line item still gives one row, and a key that
    is missing from the receipt or from a line item gives an empty cell. *)
Theorem append_receipt_blank_cells
    (e : env) (d : dict) (l : list json) (sheet_name : string) (st : state) :
  match dict_get d "line_items" with Some v => v | None => JArr [] end = JArr l ->
  forallb is_object l = true ->
  sheets_ok e st sheet_name (map (row_with_blanks (JObj d)) l) ->
  append_receipt e (JObj d) sheet_name st
  = (Return (success (length l)),
     mkState (categories_file st) true
       (requests st ++ [((sheet_name ++ "!A:D")%string,
                         map (row_with_blanks (JObj d)) l)])).
Proof.
  intros Hl Hobj [Hauth Hexec].
  unfold append_receipt. unfold bind at 1, get_state.
  unfold bind at 1. rewrite ensure_service.
  assert (Hgo : forall st1,
             categories_file st1 = categories_file st ->
             requests st1 = requests st ->
             (vendor <- lift (py_get (JObj d) "vendor" (JStr EmptyString)) ;;
              date <- lift (py_get (JObj d) "date" (JStr EmptyString)) ;;
              line_items <- lift (py_get (JObj d) "line_items" (JArr [])) ;;
              items <- lift (py_iter line_items) ;;
              values <- append_rows date vendor items [] ;;
              execute e ((sheet_name ++ "!A:D")%string, values) ;;
              ret (success (length values))) st1
             = (Return (success (length l)),
                mkState (categories_file st) (service st1)
                  (requests st ++ [((sheet_name ++ "!A:D")%string,
                                    map (row_with_blanks (JObj d)) l)]))).
  { intros st1 Hc Hr.
    unfold bind at 1, lift at 1. cbn [py_get].
    unfold bind at 1, lift at 1.
    unfold bind at 1, lift at 1. rewrite Hl.
    unfold bind at 1, lift at 1. cbn [py_iter].
    unfold bind at 1. rewrite (append_rows_objects _ _ l Hobj). cbn [app].
    unfold bind, execute, ret.
    match goal with
    | |- context [sheets_execute e (_, ?vs)] =>
        change vs with (map (row_with_blanks (JObj d)) l)
    end.
    rewrite Hexec, length_map, Hc, Hr. reflexivity. }
  destruct (service st) eqn:Es.
  - rewrite (Hgo st eq_refl eq_refl), Es. reflexivity.
  - destruct Hauth as [Hs | Ha]; [discriminate |]. rewrite Ha.
    exact (Hgo (mkState (categories_file st) true (requests st)) eq_refl eq_refl).
Qed.

Lemma append_receipt_blank_cells_witness :
  append_receipt env_ok
    (JObj [("vendor", JStr "Corner Shop");
           ("line_items", JArr [JObj [("item", JStr "Milk")]])])
    "Sheet1" fresh_state
  = (Return (success 1),
     mkState NoFile true
       ([] ++ [("Sheet1!A:D",
                [[JStr EmptyString; JStr "Corner Shop"; JStr "Milk";
                  JStr EmptyString; JStr EmptyString]])])).
Proof.
  apply (append_receipt_blank_cells env_ok
           [("vendor", JStr "Corner Shop");
            ("line_items", JArr [JObj [("item", JStr "Milk")]])]
           [JObj [("item", JStr "Milk")]] "Sheet1" fresh_state);
    [reflexivity | reflexivity | split; [right |]; reflexivity].
Defined.

(** When the Sheets service is not there yet and [auth] raises,
    [append_receipt] raises the same exception before it looks at the
    receipt: nothing is sent and the state is as before. *)
Theorem append_receipt_auth_failure
    (e : env) (data : json) (sheet_name : string) (st : state) (x : exn) :
  service st = false ->
  sheets_auth e = Raise x ->
  append_receipt e data sheet_name st = (Raise x, st).
Proof.
  intros Hs Ha. unfold append_receipt. unfold bind at 1, get_state.
  unfold bind at 1. rewrite ensure_service, Hs, Ha. reflexivity.
Qed.

Lemma append_receipt_auth_failure_witness :
  append_receipt (env_sheets (Raise http_error) (fun _ => Return tt))
    (JNum (Int 5)) "Sheet1" fresh_state
  = (Raise http_error, fresh_state).
Proof.
  apply (append_receipt_auth_failure
           (env_sheets (Raise http_error) (fun _ => Return tt))
           (JNum (Int 5)) "Sheet1" fresh_state http_error); reflexivity.
Defined.

Lemma append_receipt_request_failure_aux
    (e : env) (data : json) (sheet_name : string) (st : state) (x : exn) :
  validated data = true ->
  service st = true \/ sheets_auth e = Return tt ->
  sheets_execute e ((sheet_name ++ "!A:D")%string,
                    map (row_of data) (line_items_of data)) = Raise x ->
  append_receipt e data sheet_name st
  = (Raise x, mkState (categories_file st) true (requests st)).
Proof.
  intros Hval Hauth Hexec.
  destruct (validated_shape data Hval) as (d & l & -> & Hv & Hd & Hl & Hall).
  rewrite (line_items_of_validated d l Hl) in Hexec.
  unfold append_receipt. unfold bind at 1, get_state.
  unfold bind at 1. rewrite ensure_service.
  assert (Hgo : forall st1,
             (vendor <- lift (py_get (JObj d) "vendor" (JStr EmptyString)) ;;
              date <- lift (py_get (JObj d) "date" (JStr EmptyString)) ;;
              line_items <- lift (py_get (JObj d) "line_items" (JArr [])) ;;
              items <- lift (py_iter line_items) ;;
              values <- append_rows date vendor items [] ;;
              execute e ((sheet_name ++ "!A:D")%string, values) ;;
              ret (success (length values))) st1
             = (Raise x, st1)).
  { intros st1.
    unfold bind at 1, lift at 1.
    rewrite (field_get (JObj d) "vendor") by exact Hv.
    unfold bind at 1, lift at 1.
    rewrite (field_get (JObj d) "date") by exact Hd.
    unfold bind at 1, lift at 1.
    unfold py_get at 1. rewrite Hl.
    unfold bind at 1, lift at 1, py_iter.
    unfold bind at 1. rewrite (append_rows_valid _ _ l Hall). cbn [app].
    unfold bind, execute.
    match goal with
    | |- context [sheets_execute e (_, ?vs)] =>
        change vs with (map (row_of (JObj d)) l)
    end.
    rewrite Hexec. reflexivity. }
  destruct (service st) eqn:Es.
  - rewrite (Hgo st). destruct st; simpl in *; subst; reflexivity.
  - destruct Hauth as [Hs | Ha]; [discriminate |]. rewrite Ha.
    exact (Hgo (mkState (categories_file st) true (requests st))).
Qed.

(** When the append request raises, [append_receipt] lets that same
    exception through: it is not caught or replaced and no success is
    reported.  The service, once built, stays, and the category store is
    not touched. *)
Theorem append_receipt_request_failure
    (e : env) (data : json) (sheet_name : string) (st : state) (x : exn) :
  validated data = true ->
  service st = true \/ sheets_auth e = Return tt ->
  sheets_execute e ((sheet_name ++ "!A:D")%string,
                    map (row_of data) (line_items_of data)) = Raise x ->
  fst (append_receipt e data sheet_name st) = Raise x /\
  service (snd (append_receipt e data sheet_name st)) = true /\
  categories_file (snd (append_receipt e data sheet_name st)) = categories_file st.
Proof.
  intros Hval Hauth Hexec.
  rewrite (append_receipt_request_failure_aux e data sheet_name st x Hval Hauth Hexec).
  repeat split.
Qed.

Lemma append_receipt_request_failure_witness :
  fst (append_receipt (env_sheets (Return tt) (fun _ => Raise http_error))
         (receipt [line_item "Milk" 3 "Dairy"]) "Sheet1" fresh_state)
  = Raise http_error /\
  service (snd (append_receipt (env_sheets (Return tt) (fun _ => Raise http_error))
                  (receipt [line_item "Milk" 3 "Dairy"]) "Sheet1" fresh_state))
  = true /\
  categories_file
    (snd (append_receipt (env_sheets (Return tt) (fun _ => Raise http_error))
            (receipt [line_item "Milk" 3 "Dairy"]) "Sheet1" fresh_state))
  = categories_file fresh_state.
Proof.
  apply (append_receipt_request_failure
           (env_sheets (Return tt) (fun _ => Raise http_error))
           (receipt [line_item "Milk" 3 "Dairy"]) "Sheet1" fresh_state http_error);
    [reflexivity | right; reflexivity | reflexivity].
Defined.

(** Two receipts in a row: the first call builds the service, so the
    second no longer needs [auth] (here it may even fail), and the sheet
    receives the two batches in the order of the calls. *)
Theorem append_receipt_twice
    (e e2 : env) (data1 data2 : json) (sheet_name : string) (st : state) :
  validated data1 = true ->
  validated data2 = true ->
  sheets_ok e st sheet_name (map (row_of data1) (line_items_of data1)) ->
  sheets_execute e2 ((sheet_name ++ "!A:D")%string,
                     map (row_of data2) (line_items_of data2)) = Return tt ->
  append_receipt e2 data2 sheet_name (snd (append_receipt e data1 sheet_name st))
  = (Return (success (length (line_items_of data2))),
     mkState (categories_file st) true
       (requests st ++
        [((sheet_name ++ "!A:D")%string, map (row_of data1) (line_items_of data1));
         ((sheet_name ++ "!A:D")%string, map (row_of data2) (line_items_of data2))])).
Proof.
  intros Hv1 Hv2 Hok1 Hexec2.
  rewrite (append_receipt_validated e data1 sheet_name st Hv1 Hok1). cbn [snd].
  rewrite (append_receipt_validated e2 data2 sheet_name _ Hv2).
  - cbn [categories_file requests]. rewrite <- app_assoc. reflexivity.
  - split; [left; reflexivity | exact Hexec2].
Qed.

Lemma append_receipt_twice_witness :
  append_receipt (env_sheets (Raise http_error) (fun _ => Return tt))
    (receipt [line_item "Bread" 2 "Bakery"]) "Sheet1"
    (snd (append_receipt env_ok (receipt [line_item "Milk" 3 "Dairy"])
            "Sheet1" fresh_state))
  = (Return (success 1),
     mkState NoFile true
       ([] ++
        [("Sheet1!A:D", map (row_of (receipt [line_item "Milk" 3 "Dairy"]))
                          [line_item "Milk" 3 "Dairy"]);
         ("Sheet1!A:D", map (row_of (receipt [line_item "Bread" 2 "Bakery"]))
                          [line_item "Bread" 2 "Bakery"])])).
Proof.
  apply (append_receipt_twice env_ok
           (env_sheets (Raise http_error) (fun _ => Return tt))
           (receipt [line_item "Milk" 3 "Dairy"])
           (receipt [line_item "Bread" 2 "Bakery"]) "Sheet1" fresh_state);
    [reflexivity | reflexivity | split; [right |]; reflexivity | reflexivity].
Defined.

(** ** [append_to_sheet] from end to end *)

(** All the ways [append_receipt] can go on a validated receipt. *)
Lemma append_receipt_validated_run
    (e : env) (data : json) (sheet_name : string) (st : state) :
  validated data = true ->
  append_receipt e data sheet_name st
  = match (if service st then Return tt else sheets_auth e) with
    | Raise x => (Raise x, st)
    | Return _ =>
        match sheets_execute e ((sheet_name ++ "!A:D")%string,
                                map (row_of data) (line_items_of data)) with
        | Return _ =>
            (Return (success (length (line_items_of data))),
             mkState (categories_file st) true
               (requests st ++ [((sheet_name ++ "!A:D")%string,
                                 map (row_of data) (line_items_of data))]))
        | Raise x => (Raise x, mkState (categories_file st) true (requests st))
        end
    end.
Proof.
  intros Hval.
  destruct (service st) eqn:Es.
  - destruct (sheets_execute e ((sheet_name ++ "!A:D")%string,
                                map (row_of data) (line_items_of data)))
      as [[] | x] eqn:Hexec.
    + apply append_receipt_validated; [exact Hval |].
      split; [left; exact Es | exact Hexec].
    + apply append_receipt_request_failure_aux; auto.
  - destruct (sheets_auth e) as [[] | x] eqn:Ha.
    + destruct (sheets_execute e ((sheet_name ++ "!A:D")%string,
                                  map (row_of data) (line_items_of data)))
        as [[] | x] eqn:Hexec.
      * apply append_receipt_validated; [exact Hval |].
        split; [right; exact Ha | exact Hexec].
      * apply append_receipt_request_failure_aux; auto.
    + unfold append_receipt. unfold bind at 1, get_state.
      unfold bind at 1. rewrite ensure_service, Es, Ha. reflexivity.
Qed.

Lemma append_to_sheet_validated_run
    (e : env) (sj : json_str) (data : json) (st : state) :
  loads sj = Decoded data ->
  validated data = true ->
  append_to_sheet e sj st
  = match (if service st then Return tt else sheets_auth e) with
    | Raise x => append_to_sheet_handler sj x st
    | Return _ =>
        match sheets_execute e ("Sheet1!A:D", map (row_of data) (line_items_of data)) with
        | Return _ =>
            (Return (Dumps (success (length (line_items_of data)))),
             mkState (categories_file st) true
               (requests st ++ [("Sheet1!A:D", map (row_of data) (line_items_of data))]))
        | Raise x =>
            append_to_sheet_handler sj x (mkState (categories_file st) true (requests st))
        end
    end.
Proof.
  intros Hloads Hval.
  rewrite (append_to_sheet_accepts e sj data st Hloads Hval).
  unfold append_validated, try_except, bind.
  rewrite (append_receipt_validated_run e data "Sheet1" st Hval).
  change ("Sheet1" ++ "!A:D")%string with "Sheet1!A:D".
  destruct (if service st then Return tt else sheets_auth e) as [[] | x];
    [| reflexivity].
  destruct (sheets_execute e ("Sheet1!A:D", map (row_of data) (line_items_of data)))
    as [[] | x]; reflexivity.
Qed.

(** The tool from end to end: a candidate that validates, with Sheets
    answering, is answered with [rows_added] equal to the number of its
    line items, and the sheet [Sheet1] receives one request that holds
    one row per line item, in the order of the receipt. *)
Theorem append_to_sheet_appends_all
    (e : env) (sj : json_str) (data : json) (st : state) :
  loads sj = Decoded data ->
  validated data = true ->
  sheets_ok e st "Sheet1" (map (row_of data) (line_items_of data)) ->
  append_to_sheet e sj st
  = (Return (Dumps (JObj [("status", JStr "success");
                          ("rows_added",
                           JNum (Int (Z.of_nat (length (line_items_of data)))))])),
     mkState (categories_file st) true
       (requests st ++ [("Sheet1!A:D", map (row_of data) (line_items_of data))])).
Proof.
  intros Hloads Hval [Hauth Hexec].
  rewrite (append_to_sheet_validated_run e sj data st Hloads Hval).
  change ("Sheet1" ++ "!A:D")%string with "Sheet1!A:D" in Hexec. rewrite Hexec.
  destruct (service st); [reflexivity |].
  destruct Hauth as [Hs | Ha]; [discriminate |]. rewrite Ha. reflexivity.
Qed.

Lemma append_to_sheet_appends_all_witness :
  append_to_sheet env_ok
    (mkJsonStr "{...}"
       (Decoded (receipt [line_item "Milk" 3 "Dairy"; line_item "Discount" (-1) "Dairy"])))
    fresh_state
  = (Return (Dumps (JObj [("status", JStr "success"); ("rows_added", JNum (Int 2))])),
     mkState NoFile true
       ([] ++ [("Sheet1!A:D",
                map (row_of (receipt [line_item "Milk" 3 "Dairy";
                                      line_item "Discount" (-1) "Dairy"]))
                  [line_item "Milk" 3 "Dairy"; line_item "Discount" (-1) "Dairy"])])).
Proof.
  apply (append_to_sheet_appends_all env_ok
           (mkJsonStr "{...}"
              (Decoded (receipt [line_item "Milk" 3 "Dairy";
                                 line_item "Discount" (-1) "Dairy"])))
           (receipt [line_item "Milk" 3 "Dairy"; line_item "Discount" (-1) "Dairy"])
           fresh_state);
    [reflexivity | reflexivity | split; [right |]; reflexivity].
Defined.

Lemma append_to_sheet_handler_state (sj : json_str) (x : exn) (st : state) :
  snd (append_to_sheet_handler sj x st) = st.
Proof. unfold append_to_sheet_handler. destruct (exn_cls x); reflexivity. Qed.

(** [append_to_sheet] never writes to the category store, sends at most
    one request, and sends one only for a candidate that validates: the
    request then holds that candidate's rows. *)
Theorem append_to_sheet_effect (e : env) (sj : json_str) (st : state) :
  categories_file (snd (append_to_sheet e sj st)) = categories_file st /\
  (requests (snd (append_to_sheet e sj st)) = requests st \/
   exists data,
     loads sj = Decoded data /\ validated data = true /\
     requests (snd (append_to_sheet e sj st))
     = requests st ++ [("Sheet1!A:D", map (row_of data) (line_items_of data))]).
Proof.
  assert (Hcases : match loads sj with
                   | Decoded data => validated data = false
                   | _ => True
                   end \/
                   exists data, loads sj = Decoded data /\ validated data = true).
  { destruct (loads sj) as [data | msg | x]; [| left; exact I | left; exact I].
    destruct (validated data) eqn:Hval; [right; eauto | left; reflexivity]. }
  destruct Hcases as [Hrej | (data & Hloads & Hval)].
  - destruct (append_to_sheet_rejects e sj st Hrej) as (v & Hrun & _).
    rewrite Hrun. simpl. auto.
  - rewrite (append_to_sheet_validated_run e sj data st Hloads Hval).
    destruct (if service st then Return tt else sheets_auth e) as [[] | x].
    + destruct (sheets_execute e ("Sheet1!A:D", map (row_of data) (line_items_of data)))
        as [[] | x].
      * simpl. split; [reflexivity |]. right. exists data. auto.
      * rewrite append_to_sheet_handler_state. simpl. auto.
    + rewrite append_to_sheet_handler_state. auto.
Qed.

(** A failure of the append request is reported, not raised: the answer
    is the exception's text as [error] with the input text as [raw]. *)
Theorem append_to_sheet_reports_sheets_failure
    (e : env) (sj : json_str) (data : json) (st : state) (x : exn) :
  loads sj = Decoded data ->
  validated data = true ->
  service st = true \/ sheets_auth e = Return tt ->
  sheets_execute e ("Sheet1!A:D", map (row_of data) (line_items_of data)) = Raise x ->
  exn_cls x <> JSONDecodeError ->
  fst (append_to_sheet e sj st)
  = Return (Dumps (JObj [("error", JStr (exn_str x)); ("raw", JStr (text sj))])).
Proof.
  intros Hloads Hval Hauth Hexec Hcls.
  rewrite (append_to_sheet_validated_run e sj data st Hloads Hval), Hexec.
  assert (Hh : forall st1, fst (append_to_sheet_handler sj x st1)
                           = Return (other_error x sj)).
  { intros st1. unfold append_to_sheet_handler.
    destruct (exn_cls x); try reflexivity. contradiction. }
  destruct (service st); [apply Hh |].
  destruct Hauth as [Hs | Ha]; [discriminate |]. rewrite Ha. apply Hh.
Qed.

Lemma append_to_sheet_reports_sheets_failure_witness :
  fst (append_to_sheet (env_sheets (Return tt) (fun _ => Raise http_error))
         (mkJsonStr "{...}" (Decoded (receipt [line_item "Milk" 3 "Dairy"])))
         fresh_state)
  = Return (Dumps (JObj [("error", JStr "403 Forbidden"); ("raw", JStr "{...}")])).
Proof.
  apply (append_to_sheet_reports_sheets_failure
           (env_sheets (Return tt) (fun _ => Raise http_error))
           (mkJsonStr "{...}" (Decoded (receipt [line_item "Milk" 3 "Dairy"])))
           (receipt [line_item "Milk" 3 "Dairy"]) fresh_state http_error);
    [reflexivity | reflexivity | right; reflexivity | reflexivity | discriminate].
Defined.

(** The first handler takes every [JSONDecodeError] raised in the body:
    when the append request itself raises one, for an input that
    deserialized and validated, the answer still is [Invalid JSON
    received from LLM]. *)
Theorem append_to_sheet_blames_input_for_decode_error
    (e : env) (sj : json_str) (data : json) (st : state) (x : exn) :
  loads sj = Decoded data ->
  validated data = true ->
  service st = true \/ sheets_auth e = Return tt ->
  sheets_execute e ("Sheet1!A:D", map (row_of data) (line_items_of data)) = Raise x ->
  exn_cls x = JSONDecodeError ->
  append_to_sheet e sj st
  = (Return (Dumps (JObj [("error", JStr "Invalid JSON received from LLM");
                          ("raw", JStr (text sj))])),
     mkState (categories_file st) true (requests st)).
Proof.
  intros Hloads Hval Hauth Hexec Hcls.
  rewrite (append_to_sheet_validated_run e sj data st Hloads Hval), Hexec.
  assert (Hh : forall st1, append_to_sheet_handler sj x st1
                           = (Return (invalid_json_error sj), st1)).
  { intros st1. unfold append_to_sheet_handler. rewrite Hcls. reflexivity. }
  destruct (service st); [apply Hh |].
  destruct Hauth as [Hs | Ha]; [discriminate |]. rewrite Ha. apply Hh.
Qed.

Lemma append_to_sheet_blames_input_for_decode_error_witness :
  append_to_sheet
    (env_sheets (Return tt)
       (fun _ => Raise (mkExn JSONDecodeError "Expecting value: line 1 column 1")))
    (mkJsonStr "{...}" (Decoded (receipt [line_item "Milk" 3 "Dairy"]))) fresh_state
  = (Return (Dumps (JObj [("error", JStr "Invalid JSON received from LLM");
                          ("raw", JStr "{...}")])),
     mkState NoFile true []).
Proof.
  apply (append_to_sheet_blames_input_for_decode_error
           (env_sheets (Return tt)
              (fun _ => Raise (mkExn JSONDecodeError "Expecting value: line 1 column 1")))
           (mkJsonStr "{...}" (Decoded (receipt [line_item "Milk" 3 "Dairy"])))
           (receipt [line_item "Milk" 3 "Dairy"]) fresh_state
           (mkExn JSONDecodeError "Expecting value: line 1 column 1"));
    [reflexivity | reflexivity | right; reflexivity | reflexivity | reflexivity].
Defined.



(** A line item that is not an object, met before any object that lacks
    a key, ends the validation with an [AttributeError]: the catch-all
    handler reports it, with the input text as [raw], and nothing is
    appended. *)
Theorem append_to_sheet_non_object_line_item
    (e : env) (sj : json_str) (d : dict) (good rest : list json) (li : json)
    (st : state) :
  loads sj = Decoded (JObj d) ->
  forallb (fun k => has_key k d) expected_keys = true ->
  dict_get d "line_items" = Some (JArr (good ++ li :: rest)) ->
  forallb valid_line_item good = true ->
  is_object li = false ->
  append_to_sheet e sj st
  = (Return (Dumps (JObj [("error", JStr (exn_str (no_attribute li "keys")));
                          ("raw", JStr (text sj))])), st).
Proof.
  intros Hloads Hkeys Hl Hgood Hli.
  assert (Hloop : check_line_items e (JObj d) (good ++ li :: rest) st
                  = (Raise (no_attribute li "keys"), st)).
  { clear Hl. induction good as [| g good IH].
    - cbn [app check_line_items]. unfold bind, lift.
      destruct li; try discriminate; reflexivity.
    - simpl in Hgood. apply andb_prop in Hgood as [Hg Hgood].
      destruct g; try discriminate.
      cbn [app check_line_items]. unfold bind, lift.
      rewrite keys_subset_object, Hg. exact (IH Hgood). }
  unfold append_to_sheet, try_except, append_to_sheet_body.
  rewrite Hloads. unfold bind at 1. cbn [json_load]. unfold ret at 1.
  unfold bind at 1, lift at 1. rewrite all_in_object, Hkeys. cbn [negb].
  unfold bind at 1, lift at 1. cbn [py_getitem]. rewrite Hl. cbn [is_list negb].
  unfold bind at 1, lift at 1. cbn [py_iter]. unfold bind at 1.
  rewrite Hloop. reflexivity.
Qed.

Lemma append_to_sheet_non_object_line_item_witness :
  append_to_sheet env_ok
    (mkJsonStr "{...}" (Decoded (receipt [line_item "Milk" 3 "Dairy"; JNum (Int 7)])))
    fresh_state
  = (Return (Dumps (JObj [("error", JStr "'int' object has no attribute 'keys'");
                          ("raw", JStr "{...}")])), fresh_state).
Proof.
  apply (append_to_sheet_non_object_line_item env_ok
           (mkJsonStr "{...}"
              (Decoded (receipt [line_item "Milk" 3 "Dairy"; JNum (Int 7)])))
           [("vendor", JStr "Corner Shop"); ("date", JStr "01/02/2024");
            ("line_items", JArr [line_item "Milk" 3 "Dairy"; JNum (Int 7)])]
           [line_item "Milk" 3 "Dairy"] [] (JNum (Int 7)) fresh_state);
    reflexivity.
Defined.

(** The outcome of the required-keys test does not depend on the order
    in which the set of keys is gone through. *)
Theorem required_keys_test_any_order (keys keys' : list string) (data : json) :
  Permutation keys keys' -> all_in keys data = all_in keys' data.
Proof. apply all_in_any_order. Qed.

Lemma required_keys_test_any_order_witness :
  all_in ["line_items"; "date"; "vendor"] (JObj [("vendor", JStr "V")])
  = all_in (rev ["line_items"; "date"; "vendor"]) (JObj [("vendor", JStr "V")]).
Proof.
  apply (required_keys_test_any_order ["line_items"; "date"; "vendor"]
           (rev ["line_items"; "date"; "vendor"]) (JObj [("vendor", JStr "V")])).
  apply Permutation_rev.
Defined.

(** ** The Gemini helpers *)

Lemma parse_response_join (r : response) :
  parse_response r = String.concat newline (response_texts r).
Proof.
  unfold parse_response, response_texts.
  destruct (candidates r); reflexivity.
Qed.

(** [parse_response] depends only on the non-empty texts of the response,
    in order: candidates without content and parts without text add
    nothing, not even a line break; a response without any text gives the
    empty string, and a single text comes back as it is. *)
Theorem parse_response_texts (r : response) :
  (forall r', response_texts r' = response_texts r ->
              parse_response r' = parse_response r) /\
  (response_texts r = [] -> parse_response r = EmptyString) /\
  (forall s, response_texts r = [s] -> parse_response r = s).
Proof.
  repeat split.
  - intros r' H. rewrite !parse_response_join, H. reflexivity.
  - intros H. rewrite parse_response_join, H. reflexivity.
  - intros s H. rewrite parse_response_join, H. reflexivity.
Qed.

Lemma parse_response_texts_witness :
  parse_response
    (mkResponse [mkCandidate None;
                 mkCandidate (Some [mkPart None; mkPart (Some "MILK 3.50");
                                    mkPart (Some EmptyString)])])
  = "MILK 3.50".
Proof.
  apply (proj2 (proj2 (parse_response_texts
                         (mkResponse
                            [mkCandidate None;
                             mkCandidate (Some [mkPart None; mkPart (Some "MILK 3.50");
                                                mkPart (Some EmptyString)])])))).
  reflexivity.
Defined.

(** [extract_receipt_text] changes nothing in the state.  An image that
    cannot be read and a failing OCR call are both answered with the
    exception's text as [error]; otherwise the image is sent as
    [image/jpeg] and the answer is the parsed text under [raw_text]. *)
Theorem extract_receipt_text_outcomes (e : env) (image_path : string) (st : state) :
  snd (extract_receipt_text e image_path st) = st /\
  (forall x,
      read_base64 e image_path = Raise x ->
      fst (extract_receipt_text e image_path st)
      = Return (Dumps (JObj [("error", JStr (exn_str x))]))) /\
  (forall image_b64 x,
      read_base64 e image_path = Return image_b64 ->
      generate_content e (ImagePrompt "image/jpeg" image_b64
                            "Extract all text from this receipt.") = Raise x ->
      fst (extract_receipt_text e image_path st)
      = Return (Dumps (JObj [("error", JStr (exn_str x))]))) /\
  (forall image_b64 r,
      read_base64 e image_path = Return image_b64 ->
      generate_content e (ImagePrompt "image/jpeg" image_b64
                            "Extract all text from this receipt.") = Return r ->
      fst (extract_receipt_text e image_path st)
      = Return (Dumps (JObj [("raw_text", JStr (parse_response r))]))).
Proof.
  unfold extract_receipt_text, try_except, extract_receipt_text_body,
    load_image_as_base64, bind, lift.
  repeat split.
  - destruct (read_base64 e image_path) as [b | x]; [| reflexivity].
    destruct (generate_content e _); reflexivity.
  - intros x H. rewrite H. reflexivity.
  - intros b x H1 H2. rewrite H1, H2. reflexivity.
  - intros b r H1 H2. rewrite H1, H2. reflexivity.
Qed.

Lemma extract_receipt_text_outcomes_witness :
  fst (extract_receipt_text env_ok "receipt.png" fresh_state)
  = Return (Dumps (JObj [("raw_text", JStr "MILK 3.50")])).
Proof.
  apply (proj2 (proj2 (proj2 (extract_receipt_text_outcomes env_ok "receipt.png"
                                fresh_state))) "aGVsbG8="
           (mkResponse [mkCandidate (Some [mkPart (Some "MILK 3.50")])]));
    reflexivity.
Defined.



(** ** Instances of the registry and row lemmas above *)


Lemma add_category_added_witness :
  add_category "dairy"
    (mkState (File (Decoded (categories_doc (strs ["Meat"; "Dairy"])))) false [])
  = (Return (Dumps (JObj [("status", JStr "added");
                          ("categories", strs (["Meat"; "Dairy"] ++ ["dairy"]))])),
     with_file (File (Decoded (categories_doc (strs (["Meat"; "Dairy"] ++ ["dairy"])))))
       (mkState (File (Decoded (categories_doc (strs ["Meat"; "Dairy"])))) false [])).
Proof.
  apply (add_category_added "dairy" ["Meat"; "Dairy"]
           (mkState (File (Decoded (categories_doc (strs ["Meat"; "Dairy"])))) false [])
           eq_refl).
  simpl. intros [H | [H | []]]; discriminate H.
Defined.

Lemma append_receipt_rows_added_witness :
  fst (append_receipt env_ok
         (receipt [line_item "Milk" 3 "Dairy"; line_item "Discount" (-1) "Dairy";
                   line_item "Refund" (-2) "Dairy"])
         "Sheet1" fresh_state)
  = Return (JObj [("status", JStr "success"); ("rows_added", JNum (Int 3))]).
Proof.
  apply (append_receipt_rows_added env_ok
           (receipt [line_item "Milk" 3 "Dairy"; line_item "Discount" (-1) "Dairy";
                     line_item "Refund" (-2) "Dairy"])
           "Sheet1" fresh_state);
    [reflexivity | split; [right |]; reflexivity].
Defined.
